(** * Verification of the serial font uploader (Tools/send_chinese_font.py)

    Shallow embedding of [send_font_file]: the serial link and the console
    are modelled as a trace of I/O events, the remote device as the stream
    of results of successive [ser.read] calls, the file system as a map
    from path names to files, and Python exceptions as an outcome of the
    computation. *)

From Stdlib Require Import String List NArith ZArith Bool Lia.
From Stdlib Require Import Strings.Byte.
From Stdlib Require Import FunctionalExtensionality.
Import ListNotations.
Local Open Scope N_scope.

(** ** Protocol constants *)

Definition CMD_START : byte := xaa.
Definition CMD_DATA : byte := xbb.
Definition CMD_END : byte := xcc.
Definition CMD_ACK : byte := xdd.
Definition CMD_CHINESE : byte := x43.   (* ord('C') *)
Definition CHUNK_SIZE : N := 256.

(** ** Python values used by the function *)

(** Exceptions that can arise during a session.  [SerialException],
    [OverflowError], [OSError] and [ValueError] are subclasses of
    [Exception]; [KeyboardInterrupt] derives from [BaseException] only. *)
Inductive exn :=
| SerialException
| OverflowError
| OSError
| ValueError
| KeyboardInterrupt.

(** [isinstance(e, Exception)] *)
Definition is_Exception (e : exn) : bool :=
  match e with
  | KeyboardInterrupt => false
  | _ => true
  end.

(** [isinstance(e, serial.SerialException)] *)
Definition is_SerialException (e : exn) : bool :=
  match e with
  | SerialException => true
  | _ => false
  end.

(** A file on the host: its size ([os.path.getsize]) and the byte found at
    each offset; [f.read(n)] at offset [p] returns the bytes at offsets
    [p .. min(p+n, size) - 1]. *)
Record file := mkFile {
  fsize : N;
  fbyte : N -> byte
}.

Definition read_at (f : file) (pos : N) (n : N) : list byte :=
  map (fun k => fbyte f (pos + N.of_nat k))
      (seq 0 (N.to_nat (N.min n (fsize f - pos)))).

(** The whole contents of a file. *)
Definition contents (f : file) : list byte := read_at f 0 (fsize f).

(** Result of one [ser.read(n)] call: the bytes the device delivered before
    the timeout (possibly none), or an exception raised by the port. *)
Inductive rresp :=
| RBytes (l : list byte)
| RRaise (e : exn).

(** The environment of a session. *)
Record env := mkEnv {
  fs : string -> option file;              (* os.path.exists / getsize / open *)
  serial_open : string -> Z -> option exn; (* serial.Serial(port, baudrate) *)
  remote : nat -> rresp                    (* result of the i-th ser.read *)
}.

(** Console messages printed by the function. *)
Inductive msg :=
| MFileNotFound (f : string)
| MFontFile (f : string)
| MFileSize (n : N)
| MConnected (port : string) (baud : Z)
| MSendingC
| MWaitingOK
| MWarnNoOK
| MReceivedOK
| MWarnUnexpected (s : list byte)
| MSendingStart
| MAckReceived
| MReceived (first5 : list byte)
| MWaitingAck (attempt : N)
| MNoAckAfter (n : N)
| MNoAckAt (total_sent : N)
| MProgress (total_sent file_size : N)
| MNewline
| MComplete
| MSerialError (e : exn)
| MError (e : exn)
| MTraceback.

(** Observable events: console output and operations on the serial port.
    Sleeps are in milliseconds. *)
Inductive event :=
| Print (m : msg)
| Open (port : string) (baud : Z)
| Write (bs : list byte)
| Flush
| ResetIn
| ResetOut
| Read (n : nat)
| Sleep (ms : nat)
| Close.

(** The bytes written to the link, in order. *)
Definition wire (evs : list event) : list byte :=
  flat_map (fun e => match e with Write bs => bs | _ => [] end) evs.

(** The payloads of the [ser.write] calls, in order. *)
Definition writes (evs : list event) : list (list byte) :=
  flat_map (fun e => match e with Write bs => [bs] | _ => [] end) evs.

(** ** A trace / exception monad

    A computation takes the index of the next [ser.read] call and returns
    the events it emitted, the next read index and its outcome.  [Diverge]
    is the outcome of a loop that runs out of its iteration budget. *)

Inductive outcome (A : Type) :=
| Ret (a : A)
| Raise (e : exn)
| Diverge.
Arguments Ret {A} a.
Arguments Raise {A} e.
Arguments Diverge {A}.

Definition M (A : Type) := nat -> list event * nat * outcome A.

Definition ret {A} (a : A) : M A := fun i => ([], i, Ret a).
Definition raise {A} (e : exn) : M A := fun i => ([], i, Raise e).
Definition diverge {A} : M A := fun i => ([], i, Diverge).
Definition emit (ev : event) : M unit := fun i => ([ev], i, Ret tt).

Definition bind {A B} (m : M A) (k : A -> M B) : M B := fun i =>
  match m i with
  | (ev1, i1, Ret a) => let '(ev2, i2, r) := k a i1 in (ev1 ++ ev2, i2, r)
  | (ev1, i1, Raise e) => (ev1, i1, Raise e)
  | (ev1, i1, Diverge) => (ev1, i1, Diverge)
  end.

Notation "x <- m ;; k" := (bind m (fun x => k))
  (at level 61, m at next level, right associativity).
Notation "m ;; k" := (bind m (fun _ => k))
  (at level 61, right associativity).

(** [try: m except ...: h] for the exceptions that are instances of
    [Exception]; other exceptions and divergence pass through. *)
Definition try_except {A} (m : M A) (h : exn -> M A) : M A := fun i =>
  match m i with
  | (ev1, i1, Raise e) =>
      if is_Exception e
      then let '(ev2, i2, r) := h e i1 in (ev1 ++ ev2, i2, r)
      else (ev1, i1, Raise e)
  | r => r
  end.

(** [int.to_bytes(w, 'little')] on a non-negative int. *)
Definition byte_of_N (n : N) : byte :=
  match Byte.of_N (n mod 256) with Some b => b | None => x00 end.

Fixpoint le_bytes (w : nat) (n : N) : list byte :=
  match w with
  | O => []
  | S w' => byte_of_N n :: le_bytes w' (n / 256)
  end.

Definition to_bytes (n : N) (w : nat) : M (list byte) :=
  if n <? 2 ^ (8 * N.of_nat w) then ret (le_bytes w n) else raise OverflowError.

(** Little-endian decoding, as the receiver reads the length fields. *)
Fixpoint decode_le (bs : list byte) : N :=
  match bs with
  | [] => 0
  | b :: bs' => Byte.to_N b + 256 * decode_le bs'
  end.

(** [bytes.decode('ascii', errors='ignore')]: non-ASCII bytes are dropped. *)
Definition decode_ascii_ignore (bs : list byte) : list byte :=
  filter (fun b => Byte.to_N b <? 128) bs.

(** ["OK" in s] *)
Fixpoint contains_OK (s : list byte) : bool :=
  match s with
  | a :: ((b :: _) as t) => (Byte.eqb a x4f && Byte.eqb b x4b) || contains_OK t
  | _ => false
  end.

(** [any(byte == CMD_ACK for byte in ack)] *)
Definition has_ack (bs : list byte) : bool := existsb (Byte.eqb CMD_ACK) bs.

Definition max_retries : N := 50.

Section Uploader.

Variable E : env.

(** [ser.read(n)]: at most [n] bytes. *)
Definition ser_read (n : nat) : M (list byte) := fun i =>
  match remote E i with
  | RBytes l => ([Read n], S i, Ret (firstn n l))
  | RRaise e => ([Read n], S i, Raise e)
  end.

Definition print (m : msg) : M unit := emit (Print m).
Definition ser_write (bs : list byte) : M unit := emit (Write bs).
Definition sleep (ms : nat) : M unit := emit (Sleep ms).

(** Body of the START loop (lines 75-102). *)
Definition hs_body (file_size retry_count : N) : M (N * bool) :=
  emit ResetIn ;; sleep 100 ;;
  ser_write [CMD_START] ;; emit Flush ;; sleep 50 ;;
  bs <- to_bytes file_size 4 ;;
  ser_write bs ;; emit Flush ;; sleep 200 ;;
  ack <- ser_read 10 ;;
  if Nat.ltb 0 (length ack) then
    if has_ack ack then
      print MAckReceived ;; ret (retry_count, true)
    else
      (if retry_count mod 5 =? 0 then print (MReceived (firstn 5 ack)) else ret tt) ;;
      ret (retry_count, false)
  else
    let retry_count := retry_count + 1 in
    (if retry_count mod 5 =? 0 then print (MWaitingAck retry_count) else ret tt) ;;
    sleep 200 ;;
    ret (retry_count, false).

(** [while retry_count < max_retries and not ack_received] (line 74); the
    loop may run forever, [fuel] bounds the number of iterations observed. *)
Fixpoint hs_loop (fuel : nat) (file_size retry_count : N) (ack_received : bool)
  : M bool :=
  if (retry_count <? max_retries) && negb ack_received then
    match fuel with
    | O => diverge
    | S fuel' =>
        p <- hs_body file_size retry_count ;;
        hs_loop fuel' file_size (fst p) (snd p)
    end
  else ret ack_received.

(** [while total_sent < file_size] over the open file (lines 112-135);
    [pos] is the file offset.  Returns [false] where the source returns
    [False], [true] when the loop ends.  Every iteration that continues
    consumes at least one byte, so [S (size / 256)] iterations suffice
    (lemmas [chunks_from_count] and [data_loop_true] below). *)
Fixpoint data_loop (fuel : nat) (f : file) (file_size total_sent pos : N)
  : M bool :=
  if total_sent <? file_size then
    match fuel with
    | O => diverge
    | S fuel' =>
        let chunk := read_at f pos CHUNK_SIZE in
        let pos := pos + N.of_nat (length chunk) in
        if Nat.eqb (length chunk) 0 then ret true
        else
          ser_write [CMD_DATA] ;; sleep 10 ;;
          bs <- to_bytes (N.of_nat (length chunk)) 2 ;;
          ser_write bs ;; sleep 10 ;;
          ser_write chunk ;; sleep 50 ;;
          ack <- ser_read 1 ;;
          match ack with
          | a :: _ =>
              if Byte.eqb a CMD_ACK then
                let total_sent := total_sent + N.of_nat (length chunk) in
                print (MProgress total_sent file_size) ;;
                data_loop fuel' f file_size total_sent pos
              else
                print (MNoAckAt total_sent) ;; emit Close ;; ret false
          | [] => print (MNoAckAt total_sent) ;; emit Close ;; ret false
          end
    end
  else ret true.

(** Steps 1 to 3 of the [try] block (lines 68-145): handshake, DATA
    packets, END. *)
Definition transfer (f : file) (fuel : nat) : M bool :=
  let file_size := fsize f in
  print MSendingStart ;;
  ack_received <- hs_loop fuel file_size 0 false ;;
  if negb ack_received then
    print (MNoAckAfter max_retries) ;; emit Close ;; ret false
  else
    ok <- data_loop (S (N.to_nat (file_size / CHUNK_SIZE))) f file_size 0 0 ;;
    if negb ok then ret false
    else
      print MNewline ;;
      ser_write [CMD_END] ;; sleep 100 ;;
      emit Close ;; print MComplete ;; ret true.

(** Mode select (lines 43-66): the 'C' trigger and the advisory "OK"
    check. *)
Definition mode_select : M unit :=
  emit ResetIn ;; emit ResetOut ;;
  print MSendingC ;; ser_write [CMD_CHINESE] ;; emit Flush ;;
  print MWaitingOK ;;
  response <- ser_read 4 ;;
  (if Nat.ltb (length response) 4 then print MWarnNoOK
   else
     let response_str := decode_ascii_ignore response in
     if contains_OK response_str then print MReceivedOK
     else print (MWarnUnexpected response_str)) ;;
  sleep 500 ;; emit ResetIn.

(** The [try] block (lines 40-145). *)
Definition session (port : string) (baudrate : Z) (f : file) (fuel : nat)
  : M bool :=
  match serial_open E port baudrate with
  | Some e => raise e
  | None =>
      emit (Open port baudrate) ;; print (MConnected port baudrate) ;;
      mode_select ;;
      transfer f fuel
  end.

(** The except clauses (lines 147-154). *)
Definition handler (e : exn) : M bool :=
  if is_SerialException e then print (MSerialError e) ;; ret false
  else print (MError e) ;; print MTraceback ;; ret false.

Definition send_font_file_m (port : string) (baudrate : Z) (font_file : string)
  (fuel : nat) : M bool :=
  match fs E font_file with
  | None => print (MFileNotFound font_file) ;; ret false
  | Some f =>
      print (MFontFile font_file) ;; print (MFileSize (fsize f)) ;;
      try_except (session port baudrate f fuel) handler
  end.

(** A whole call, starting before the first read. *)
Definition send_font_file (port : string) (baudrate : Z) (font_file : string)
  (fuel : nat) : list event * nat * outcome bool :=
  send_font_file_m port baudrate font_file fuel O.

End Uploader.

Definition trace (r : list event * nat * outcome bool) : list event :=
  fst (fst r).
Definition result (r : list event * nat * outcome bool) : outcome bool :=
  snd r.

(** ** Reading the DATA packets off the wire

    A DATA packet is the write of the one-byte command [CMD_DATA], followed
    by the write of its length field and the write of its payload. *)
Fixpoint data_packets (ws : list (list byte)) : list (list byte) :=
  match ws with
  | [] => []
  | w :: tl =>
      match w, tl with
      | [b], _ :: ch :: rest =>
          if Byte.eqb b CMD_DATA then ch :: data_packets rest
          else data_packets tl
      | _, _ => data_packets tl
      end
  end.

(** Sum of the lengths of a list of chunks. *)
Definition sum_len (cs : list (list byte)) : N :=
  fold_right (fun c acc => N.of_nat (length c) + acc) 0 cs.

(** The successive [f.read(CHUNK_SIZE)] results from offset [pos] while
    [pos < size], at most [n] of them (proof device for the loop). *)
Fixpoint chunks_from (n : nat) (f : file) (pos : N) : list (list byte) :=
  match n with
  | O => []
  | S n' =>
      if pos <? fsize f then
        let c := read_at f pos CHUNK_SIZE in
        c :: chunks_from n' f (pos + N.of_nat (length c))
      else []
  end.

(** Events of one acknowledged-or-not DATA packet, up to its ACK read. *)
Definition chunk_events (c : list byte) : list event :=
  [Write [CMD_DATA]; Sleep 10; Write (le_bytes 2 (N.of_nat (length c)));
   Sleep 10; Write c; Sleep 50; Read 1].

(** Events of a run of acknowledged DATA packets starting at total [t]. *)
Fixpoint data_events (L t : N) (cs : list (list byte)) : list event :=
  match cs with
  | [] => []
  | c :: cs' =>
      chunk_events c ++ Print (MProgress (t + N.of_nat (length c)) L)
        :: data_events L (t + N.of_nat (length c)) cs'
  end.

(** The message printed after the mode-select read (lines 55-62). *)
Definition mode_msg (response : list byte) : msg :=
  if Nat.ltb (length response) 4 then MWarnNoOK
  else
    let response_str := decode_ascii_ignore response in
    if contains_OK response_str then MReceivedOK
    else MWarnUnexpected response_str.

(** Events from opening the port to the start of the handshake. *)
Definition mode_events (port : string) (baud : Z) (response : list byte)
  : list event :=
  [Open port baud; Print (MConnected port baud); ResetIn; ResetOut;
   Print MSendingC; Write [CMD_CHINESE]; Flush; Print MWaitingOK; Read 4;
   Print (mode_msg response); Sleep 500; ResetIn].

(** Events after the last DATA packet of a successful transfer. *)
Definition end_events : list event :=
  [Print MNewline; Write [CMD_END]; Sleep 100; Close; Print MComplete].

(** The console output of the except clauses for [e]. *)
Definition handler_events (e : exn) : list event :=
  if is_SerialException e then [Print (MSerialError e)]
  else [Print (MError e); Print MTraceback].

(** Events of one START attempt up to its ACK read (lines 75-86), when
    the size fits in four bytes. *)
Definition hs_prefix (L : N) : list event :=
  [ResetIn; Sleep 100; Write [CMD_START]; Flush; Sleep 50;
   Write (le_bytes 4 L); Flush; Sleep 200; Read 10].

(** The writes of one START attempt: the command byte, then the length. *)
Definition attempt_writes (L : N) : list (list byte) :=
  [[CMD_START]; le_bytes 4 L].


(** Events from opening the port to the mode-select read included. *)
Definition open_events (port : string) (baud : Z) : list event :=
  [Open port baud; Print (MConnected port baud); ResetIn; ResetOut;
   Print MSendingC; Write [CMD_CHINESE]; Flush; Print MWaitingOK; Read 4].

(** What the link and the caller observe of a call on an existing file:
    the writes and the outcome, as a function of the port opening, the
    mode-select read and the transfer.  [catch e] is the effect of the
    except clauses on [e]. *)
Definition catch (e : exn) : outcome bool :=
  if is_Exception e then Ret false else Raise e.

Definition observe (so : option exn) (r0 : rresp)
  (t : list event * nat * outcome bool) : list (list byte) * outcome bool :=
  match so with
  | Some e => ([], catch e)
  | None =>
      match r0 with
      | RRaise e => ([[CMD_CHINESE]], catch e)
      | RBytes _ =>
          ([CMD_CHINESE] :: writes (fst (fst t)),
           match snd t with Raise e => catch e | r => r end)
      end
  end.

(** ** Further observations on a call

    The frame of one DATA packet: the command byte, the 2-byte length
    field and the payload, as three writes (lines 118-125). *)
Definition data_frame (c : list byte) : list (list byte) :=
  [[CMD_DATA]; le_bytes 2 (N.of_nat (length c)); c].

(** The totals of the progress lines (line 135), in order. *)
Fixpoint progress (evs : list event) : list N :=
  match evs with
  | [] => []
  | Print (MProgress t _) :: evs' => t :: progress evs'
  | _ :: evs' => progress evs'
  end.

(** Number of events satisfying [p]. *)
Definition count_ev (p : event -> bool) (evs : list event) : nat :=
  length (filter p evs).

Definition is_open (ev : event) : bool :=
  match ev with Open _ _ => true | _ => false end.

Definition is_close (ev : event) : bool :=
  match ev with Close => true | _ => false end.

(** The events a START attempt can produce (lines 75-102). *)
Definition hs_event (ev : event) : bool :=
  match ev with
  | Print (MAckReceived | MReceived _ | MWaitingAck _)
  | ResetIn | Sleep _ | Write _ | Flush | Read _ => true
  | _ => false
  end.

(** ** The command-line entry point [main] (lines 156-194)

    Besides [send_font_file], [main] calls [int] on the baudrate argument,
    [os.path.isabs], [os.path.join], [os.path.dirname(os.path.abspath(
    __file__))] and [input()]; these are taken from a [host].  [h_int s] is
    [None] where [int(s)] raises [ValueError]; [h_input] is [None] where
    [input()] returns a line and the exception it raises otherwise.
    [os.path.exists] is the file system of the environment, as in
    [send_font_file]. *)
Inductive merr :=
| PyErr (e : exn)
| EOFError.

Record host := mkHost {
  h_int : string -> option Z;
  h_isabs : string -> bool;
  h_join : string -> string -> string;
  script_dir : string;
  h_input : option merr
}.

(** Console messages printed by [main]. *)
Inductive main_msg :=
| MUsingDefaults
| MPortIs (port : string)
| MFontFileIs (f : string)
| MBaudrateIs (baud : Z)
| MToCustomize
| MBlank
| MUploadCompleted
| MUploadFailed
| MPressEnter.

(** Events of [main]: its own output, the events of the [send_font_file]
    call, and the [input()] call. *)
Inductive mevent :=
| MPrint (m : main_msg)
| MUpload (ev : event)
| MInput.

(** How [main] ends: [sys.exit(code)], an exception leaving [main], or an
    upload still running when the fuel runs out. *)
Inductive main_result :=
| Exited (code : Z)
| Uncaught (e : merr)
| Running.

Definition default_port : string := "COM4".
Definition default_font_file : string := "chinese16x16.bin".
Definition default_baudrate : Z := 115200.

(** [os.path.exists(p)] *)
Definition path_exists (E : env) (p : string) : bool :=
  match fs E p with Some _ => true | None => false end.

(** Lines 161-178: the port, the font file, the baudrate and the lines
    printed; [None] where [int(sys.argv[3])] raises [ValueError]. *)
Definition parse_args (H : host) (argv : list string)
  : option (string * string * Z * list main_msg) :=
  if Nat.leb 3 (length argv) then
    let port := nth 1 argv EmptyString in
    let font_file := nth 2 argv EmptyString in
    if Nat.ltb 3 (length argv) then
      match h_int H (nth 3 argv EmptyString) with
      | Some baudrate => Some (port, font_file, baudrate, [])
      | None => None
      end
    else Some (port, font_file, default_baudrate, [])
  else if Nat.eqb (length argv) 2 then
    Some (nth 1 argv EmptyString, default_font_file, default_baudrate, [])
  else
    Some (default_port, default_font_file, default_baudrate,
          [MUsingDefaults; MPortIs default_port;
           MFontFileIs default_font_file; MBaudrateIs default_baudrate;
           MToCustomize; MBlank]).

(** Lines 180-184: a relative path that does not exist is looked up next
    to the script. *)
Definition resolve_font_file (H : host) (E : env) (font_file : string)
  : string :=
  if negb (h_isabs H font_file) && negb (path_exists E font_file) then
    let font_file_path := h_join H (script_dir H) font_file in
    if path_exists E font_file_path then font_file_path else font_file
  else font_file.

Definition main (H : host) (E : env) (argv : list string) (fuel : nat)
  : list mevent * main_result :=
  match parse_args H argv with
  | None => ([], Uncaught (PyErr ValueError))
  | Some (port, font_file, baudrate, out) =>
      let font_file := resolve_font_file H E font_file in
      let '(evs, _, r) := send_font_file E port baudrate font_file fuel in
      let pre := map MPrint out ++ map MUpload evs in
      match r with
      | Ret success =>
          (pre ++ [MPrint (if success then MUploadCompleted else MUploadFailed);
                   MPrint MPressEnter; MInput],
           match h_input H with
           | None => Exited (if success then 0 else 1)
           | Some e => Uncaught e
           end)
      | Raise e => (pre, Uncaught (PyErr e))
      | Diverge => (pre, Running)
      end
  end.

(** ** Concrete configurations

    A file of [n] zero bytes, an environment where that file exists and the
    port opens, and a few devices: one that acknowledges everything, one
    that never answers, one that always answers 0x00, one that answers
    0x00 to read [n] only, and one whose reads are interrupted. *)
Definition zero_file (n : N) : file := mkFile n (fun _ => x00).

Definition test_env (f : file) (rem : nat -> rresp) : env :=
  mkEnv (fun _ => Some f) (fun _ _ => None) rem.

Definition acking : nat -> rresp := fun _ => RBytes [CMD_ACK].
Definition silent : nat -> rresp := fun _ => RBytes [].
Definition chatty : nat -> rresp := fun _ => RBytes [x00].
Definition nack_at (n : nat) : nat -> rresp :=
  fun k => if Nat.eqb k n then RBytes [x00] else RBytes [CMD_ACK].
Definition interrupted : nat -> rresp := fun _ => RRaise KeyboardInterrupt.

(** A host whose paths are relative, that joins paths with '/', whose
    [input()] has outcome [inp], and whose [int] is [int_of]; [baud9600]
    accepts the text 9600 only. *)
Definition test_host (int_of : string -> option Z) (inp : option merr) : host :=
  mkHost int_of (fun _ => false) (fun d p => (d ++ "/" ++ p)%string) "tools" inp.

Definition baud9600 (s : string) : option Z :=
  if String.eqb s "9600" then Some 9600%Z else None.

(** ** Proofs *)

Ltac narith := zify; Z.div_mod_to_equations; lia.

Lemma length_read_at f pos n :
  length (read_at f pos n) = N.to_nat (N.min n (fsize f - pos)).
Proof. unfold read_at. rewrite length_map, length_seq. reflexivity. Qed.

Lemma chunks_from_le256 n f pos :
  Forall (fun c => (length c <= 256)%nat) (chunks_from n f pos).
Proof.
  revert pos; induction n as [|n IH]; intro pos; simpl; [constructor|].
  destruct (pos <? fsize f); constructor; auto.
  rewrite length_read_at. unfold CHUNK_SIZE. lia.
Qed.

Lemma chunks_from_count n f pos :
  pos <= fsize f ->
  (N.to_nat ((fsize f - pos + 255) / 256) <= n)%nat ->
  N.of_nat (length (chunks_from n f pos)) = (fsize f - pos + 255) / 256 /\
  sum_len (chunks_from n f pos) = fsize f - pos.
Proof.
  revert pos; induction n as [|n IH]; intros pos Hle Hn; simpl.
  - assert ((fsize f - pos + 255) / 256 = 0) by narith. split; [now rewrite H|].
    narith.
  - destruct (N.ltb_spec pos (fsize f)) as [Hlt|Hge].
    + rewrite length_read_at. unfold CHUNK_SIZE.
      set (d := N.min 256 (fsize f - pos)).
      assert (Hd : N.of_nat (N.to_nat d) = d) by apply N2Nat.id.
      rewrite Hd.
      assert (Hstep : (fsize f - (pos + d) + 255) / 256
                      = (fsize f - pos + 255) / 256 - 1) by (subst d; narith).
      destruct (IH (pos + d)) as [H1 H2].
      * subst d; lia.
      * rewrite Hstep. assert (1 <= (fsize f - pos + 255) / 256) by narith. lia.
      * cbn [length]. rewrite Nat2N.inj_succ, H1, Hstep.
        unfold sum_len in H2 |- *. cbn [fold_right].
        rewrite length_read_at. fold d. rewrite Hd, H2.
        split; [|subst d; lia].
        assert (1 <= (fsize f - pos + 255) / 256) by narith. lia.
    + split; [|simpl; lia]. simpl. narith.
Qed.

Lemma byte_of_N_to_N n : Byte.to_N (byte_of_N n) = n mod 256.
Proof.
  unfold byte_of_N. destruct (Byte.of_N (n mod 256)) as [b|] eqn:H.
  - apply Byte.to_of_N in H. exact H.
  - apply Byte.of_N_None_iff in H. pose proof (N.mod_lt n 256 ltac:(discriminate)). lia.
Qed.

(** The little-endian encoding of a value that fits in [w] bytes decodes
    back to that value. *)
Lemma decode_le_bytes w n :
  n < 2 ^ (8 * N.of_nat w) -> decode_le (le_bytes w n) = n.
Proof.
  revert n; induction w as [|w IH]; intros n Hn.
  - cbn in Hn |- *. lia.
  - cbn [le_bytes decode_le]. rewrite byte_of_N_to_N, IH.
    + pose proof (N.div_mod n 256 ltac:(discriminate)). lia.
    + apply N.Div0.div_lt_upper_bound.
      rewrite Nat2N.inj_succ, N.mul_succ_r, N.pow_add_r in Hn.
      replace (2 ^ 8) with 256 in Hn by reflexivity. lia.
Qed.

Section Proofs.

Variable E : env.

Lemma to_bytes_len2 (c : list byte) i :
  (length c <= 256)%nat ->
  to_bytes (N.of_nat (length c)) 2 i = ([], i, Ret (le_bytes 2 (N.of_nat (length c)))).
Proof.
  intro H. unfold to_bytes.
  replace (N.of_nat (length c) <? 2 ^ (8 * N.of_nat 2)) with true
    by (symmetry; apply N.ltb_lt; simpl; lia).
  reflexivity.
Qed.

Lemma read_at_chunk_le f pos : (length (read_at f pos CHUNK_SIZE) <= 256)%nat.
Proof. rewrite length_read_at. unfold CHUNK_SIZE. lia. Qed.

Lemma read_at_chunk_pos f pos :
  pos < fsize f -> length (read_at f pos CHUNK_SIZE) <> 0%nat.
Proof. intro H. rewrite length_read_at. unfold CHUNK_SIZE. lia. Qed.

Ltac unfold_m :=
  unfold print, ser_write, ser_read, sleep in *; unfold bind, emit, ret in *.

(** One DATA iteration acknowledged by the device. *)
Lemma data_loop_step_ack fuel f t i l :
  t < fsize f ->
  remote E i = RBytes (CMD_ACK :: l) ->
  data_loop E (S fuel) f (fsize f) t t i =
  let c := read_at f t CHUNK_SIZE in
  let t' := t + N.of_nat (length c) in
  let '(ev2, i2, r) := data_loop E fuel f (fsize f) t' t' (S i) in
  (chunk_events c ++ Print (MProgress t' (fsize f)) :: ev2, i2, r).
Proof.
  intros Hlt Hr. cbn [data_loop].
  replace (t <? fsize f) with true by (symmetry; now apply N.ltb_lt).
  set (c := read_at f t CHUNK_SIZE).
  assert (Hc0 : Nat.eqb (length c) 0 = false)
    by (apply Nat.eqb_neq, read_at_chunk_pos, Hlt).
  rewrite Hc0. unfold to_bytes.
  replace (N.of_nat (length c) <? 2 ^ (8 * N.of_nat 2)) with true
    by (symmetry; apply N.ltb_lt; pose proof (read_at_chunk_le f t); simpl; fold c in H; lia).
  unfold_m. rewrite Hr. cbn -[data_loop].
  destruct (data_loop E fuel f (fsize f) _ _ (S i)) as [[e2 i2] r2]. reflexivity.
Qed.

(** One DATA iteration whose ACK read returns anything but an ACK. *)
Lemma data_loop_step_nack fuel f t i l :
  t < fsize f ->
  remote E i = RBytes l ->
  (forall l', l <> CMD_ACK :: l') ->
  data_loop E (S fuel) f (fsize f) t t i =
  (chunk_events (read_at f t CHUNK_SIZE) ++ [Print (MNoAckAt t); Close], S i, Ret false).
Proof.
  intros Hlt Hr Hn. cbn [data_loop].
  replace (t <? fsize f) with true by (symmetry; now apply N.ltb_lt).
  set (c := read_at f t CHUNK_SIZE).
  assert (Hc0 : Nat.eqb (length c) 0 = false)
    by (apply Nat.eqb_neq, read_at_chunk_pos, Hlt).
  rewrite Hc0. unfold to_bytes.
  replace (N.of_nat (length c) <? 2 ^ (8 * N.of_nat 2)) with true
    by (symmetry; apply N.ltb_lt; pose proof (read_at_chunk_le f t); simpl; fold c in H; lia).
  unfold_m. rewrite Hr. cbn -[data_loop].
  destruct l as [|a l]; [reflexivity|].
  cbn. destruct (Byte.eqb a CMD_ACK) eqn:Ha; [|reflexivity].
  apply Byte.byte_dec_bl in Ha. subst a. exfalso. exact (Hn l eq_refl).
Qed.

Lemma ceil_step (L t : N) :
  t < L ->
  (L - (t + N.min 256 (L - t)) + 255) / 256 = (L - t + 255) / 256 - 1 /\
  1 <= (L - t + 255) / 256.
Proof. intro H. split; narith. Qed.

Lemma data_loop_end fuel f t i :
  fsize f <= t -> data_loop E fuel f (fsize f) t t i = ([], i, Ret true).
Proof.
  intro H. destruct fuel; cbn [data_loop];
    replace (t <? fsize f) with false by (symmetry; apply N.ltb_ge; lia);
    reflexivity.
Qed.

Lemma chunks_from_cons fuel f t :
  t < fsize f ->
  chunks_from (S fuel) f t =
  read_at f t CHUNK_SIZE
    :: chunks_from fuel f (t + N.of_nat (length (read_at f t CHUNK_SIZE))).
Proof.
  intro H. cbn [chunks_from].
  replace (t <? fsize f) with true by (symmetry; now apply N.ltb_lt). reflexivity.
Qed.

Lemma chunks_from_nil fuel f t :
  fsize f <= t -> chunks_from fuel f t = [].
Proof.
  intro H. destruct fuel; cbn [chunks_from]; [reflexivity|].
  replace (t <? fsize f) with false by (symmetry; apply N.ltb_ge; lia). reflexivity.
Qed.

Lemma length_chunk f t :
  N.of_nat (length (read_at f t CHUNK_SIZE)) = N.min 256 (fsize f - t).
Proof. rewrite length_read_at. unfold CHUNK_SIZE. apply N2Nat.id. Qed.

(** A DATA loop whose every ACK read is acknowledged sends every chunk. *)
Lemma data_loop_acked fuel f t i :
  t <= fsize f ->
  (N.to_nat ((fsize f - t + 255) / 256) <= fuel)%nat ->
  (forall k, (k < length (chunks_from fuel f t))%nat ->
     exists l, remote E (i + k) = RBytes (CMD_ACK :: l)) ->
  data_loop E fuel f (fsize f) t t i =
  (data_events (fsize f) t (chunks_from fuel f t),
   (i + length (chunks_from fuel f t))%nat, Ret true).
Proof.
  revert t i; induction fuel as [|fuel IH]; intros t i Hle Hfuel Hack.
  - assert (fsize f <= t) by narith.
    rewrite data_loop_end, chunks_from_nil by assumption.
    now rewrite Nat.add_0_r.
  - destruct (N.lt_ge_cases t (fsize f)) as [Hlt|Hge].
    + rewrite chunks_from_cons in Hack |- * by assumption.
      destruct (Hack 0%nat) as [l Hl]; [simpl; lia|].
      rewrite Nat.add_0_r in Hl.
      rewrite (data_loop_step_ack fuel f t i l Hlt Hl). cbv zeta.
      destruct (ceil_step (fsize f) t Hlt) as [Hs H1].
      rewrite length_chunk.
      rewrite IH.
      * cbn [data_events length]. rewrite length_chunk.
        f_equal. f_equal. lia.
      * lia.
      * rewrite Hs. lia.
      * intros k Hk. destruct (Hack (S k)) as [l' Hl'].
        { rewrite length_chunk. cbn [length]. lia. }
        exists l'. rewrite <- Hl'. f_equal. lia.
    + rewrite data_loop_end, chunks_from_nil by assumption.
      now rewrite Nat.add_0_r.
Qed.

(** A DATA loop whose ACK read after chunk [k+1] fails stops there. *)
Lemma data_loop_nack k fuel f t i l :
  t <= fsize f ->
  (k < length (chunks_from fuel f t))%nat ->
  (forall j, (j < k)%nat -> exists l, remote E (i + j) = RBytes (CMD_ACK :: l)) ->
  remote E (i + k) = RBytes l ->
  (forall l', l <> CMD_ACK :: l') ->
  data_loop E fuel f (fsize f) t t i =
  (data_events (fsize f) t (firstn k (chunks_from fuel f t))
     ++ chunk_events (nth k (chunks_from fuel f t) [])
     ++ [Print (MNoAckAt (t + sum_len (firstn k (chunks_from fuel f t)))); Close],
   (i + k + 1)%nat, Ret false).
Proof.
  revert fuel t i; induction k as [|k IH]; intros fuel t i Hle Hk Hack Hl Hn.
  - destruct fuel as [|fuel]; [simpl in Hk; lia|].
    destruct (N.lt_ge_cases t (fsize f)) as [Hlt|Hge].
    + rewrite Nat.add_0_r in Hl.
      rewrite (data_loop_step_nack fuel f t i l Hlt Hl Hn).
      rewrite chunks_from_cons by assumption. cbn.
      rewrite ?N.add_0_r, ?Nat.add_0_r, Nat.add_1_r; reflexivity.
    + rewrite chunks_from_nil in Hk by assumption. simpl in Hk. lia.
  - destruct fuel as [|fuel]; [simpl in Hk; lia|].
    destruct (N.lt_ge_cases t (fsize f)) as [Hlt|Hge].
    + rewrite chunks_from_cons in Hk |- * by assumption.
      destruct (Hack 0%nat) as [l0 Hl0]; [lia|].
      rewrite Nat.add_0_r in Hl0.
      rewrite (data_loop_step_ack fuel f t i l0 Hlt Hl0). cbv zeta.
      rewrite IH.
      * cbn [firstn data_events nth app]. unfold sum_len. cbn [fold_right].
        fold (sum_len (firstn k (chunks_from fuel f (t + N.of_nat (length (read_at f t CHUNK_SIZE)))))).
        rewrite <- !app_assoc. cbn [app].
        replace (S i + k + 1)%nat with (i + S k + 1)%nat by lia. rewrite N.add_assoc. reflexivity.
      * rewrite length_chunk. lia.
      * cbn [length] in Hk. lia.
      * intros j Hj. destruct (Hack (S j)) as [l' Hl']; [lia|].
        exists l'. rewrite <- Hl'. f_equal. lia.
      * rewrite <- Hl. f_equal. lia.
      * exact Hn.
    + rewrite chunks_from_nil in Hk by assumption. simpl in Hk. lia.
Qed.

Lemma bind_eq {A B} (m : M A) (k : A -> M B) i :
  bind m k i =
  match m i with
  | (ev1, i1, Ret a) => let '(ev2, i2, r) := k a i1 in (ev1 ++ ev2, i2, r)
  | (ev1, i1, Raise e) => (ev1, i1, Raise e)
  | (ev1, i1, Diverge) => (ev1, i1, Diverge)
  end.
Proof. reflexivity. Qed.

Lemma transfer_ack f fuel i h j d j' b :
  hs_loop E fuel (fsize f) 0 false i = (h, j, Ret true) ->
  data_loop E (S (N.to_nat (fsize f / CHUNK_SIZE))) f (fsize f) 0 0 j = (d, j', Ret b) ->
  transfer E f fuel i =
  (Print MSendingStart :: h ++ d ++ (if b then end_events else []), j', Ret b).
Proof.
  intros Hh Hd. unfold transfer. rewrite bind_eq. cbn -[hs_loop data_loop].
  rewrite bind_eq, Hh. cbn [negb].
  rewrite bind_eq, Hd.
  destruct b; cbn; rewrite ?app_nil_r; reflexivity.
Qed.

Lemma transfer_noack f fuel i h j :
  hs_loop E fuel (fsize f) 0 false i = (h, j, Ret false) ->
  transfer E f fuel i =
  (Print MSendingStart :: h ++ [Print (MNoAckAfter max_retries); Close], j, Ret false).
Proof.
  intro Hh. unfold transfer. rewrite bind_eq. cbn -[hs_loop].
  rewrite bind_eq, Hh. reflexivity.
Qed.

Lemma transfer_raise f fuel i h j e :
  hs_loop E fuel (fsize f) 0 false i = (h, j, Raise e) ->
  transfer E f fuel i = (Print MSendingStart :: h, j, Raise e).
Proof.
  intro Hh. unfold transfer. rewrite bind_eq. cbn -[hs_loop].
  rewrite bind_eq, Hh. reflexivity.
Qed.

Lemma transfer_diverge f fuel i h j :
  hs_loop E fuel (fsize f) 0 false i = (h, j, Diverge) ->
  transfer E f fuel i = (Print MSendingStart :: h, j, Diverge).
Proof.
  intro Hh. unfold transfer. rewrite bind_eq. cbn -[hs_loop].
  rewrite bind_eq, Hh. reflexivity.
Qed.

(** A session whose port opens and whose mode-select read returns bytes
    proceeds to the transfer, whatever those bytes are. *)
Lemma session_transfer port baud f fuel r0 :
  serial_open E port baud = None ->
  remote E 0%nat = RBytes r0 ->
  session E port baud f fuel 0%nat =
  let '(e, j, r) := transfer E f fuel 1%nat in
  (mode_events port baud (firstn 4 r0) ++ e, j, r).
Proof.
  intros Ho Hr. unfold session, mode_select. rewrite Ho.
  unfold print, ser_write, ser_read, sleep. unfold bind, emit, ret.
  cbn -[transfer firstn]. rewrite Hr. cbn -[transfer firstn].
  generalize (firstn 4 r0) as resp. intro resp.
  unfold mode_msg. cbn -[transfer].
  destruct (Nat.leb (length resp) 3);
    [|destruct (contains_OK (decode_ascii_ignore resp))];
    cbn -[transfer];
    destruct (transfer E f fuel 1%nat) as [[e j] r]; reflexivity.
Qed.

(** The top level, for an existing file. *)
Lemma send_font_file_exists port baud name f fuel :
  fs E name = Some f ->
  send_font_file E port baud name fuel =
  match session E port baud f fuel 0%nat with
  | (e, j, Raise x) =>
      if is_Exception x
      then ([Print (MFontFile name); Print (MFileSize (fsize f))] ++ e
              ++ handler_events x, j, Ret false)
      else ([Print (MFontFile name); Print (MFileSize (fsize f))] ++ e, j, Raise x)
  | (e, j, r) => ([Print (MFontFile name); Print (MFileSize (fsize f))] ++ e, j, r)
  end.
Proof.
  intro Hf. unfold send_font_file, send_font_file_m. rewrite Hf.
  unfold bind at 1 2, print, emit. cbn -[session handler].
  unfold try_except.
  destruct (session E port baud f fuel 0%nat) as [[e j] [b|x|]]; try reflexivity.
  destruct (is_Exception x); [|reflexivity].
  unfold handler, handler_events.
  destruct (is_SerialException x); cbn; rewrite ?app_nil_r, <- ?app_assoc; reflexivity.
Qed.

(** One START attempt whose read returns bytes. *)
Lemma hs_body_bytes L rc i l :
  L < 2 ^ 32 ->
  remote E i = RBytes l ->
  exists tail rc' ar',
    hs_body E L rc i = (hs_prefix L ++ tail, S i, Ret (rc', ar')) /\
    writes tail = [] /\
    (firstn 10 l = [] -> rc' = rc + 1 /\ ar' = false) /\
    (firstn 10 l <> [] -> rc' = rc /\ ar' = has_ack (firstn 10 l)).
Proof.
  intros HL Hr. unfold hs_body, to_bytes.
  replace (L <? 2 ^ (8 * N.of_nat 4)) with true by (symmetry; apply N.ltb_lt; exact HL).
  unfold_m. rewrite Hr. cbn -[firstn has_ack].
  generalize (firstn 10 l) as ack. intros [|b ack]; cbn -[has_ack].
  - destruct ((rc + 1) mod 5 =? 0);
      (eexists _, _, _; split; [reflexivity|]); cbn;
      (split; [reflexivity|split]); intro H;
      first [split; reflexivity | exfalso; apply H; reflexivity].
  - destruct (has_ack (b :: ack)) eqn:Ha;
      [|destruct (rc mod 5 =? 0)];
      (eexists _, _, _; split; [reflexivity|]); cbn;
      (split; [reflexivity|split]); intro H;
      first [discriminate H | split; reflexivity].
Qed.

(** One START attempt whose read raises. *)
Lemma hs_body_raise L rc i e :
  L < 2 ^ 32 ->
  remote E i = RRaise e ->
  hs_body E L rc i = (hs_prefix L, S i, Raise e).
Proof.
  intros HL Hr. unfold hs_body, to_bytes.
  replace (L <? 2 ^ (8 * N.of_nat 4)) with true by (symmetry; apply N.ltb_lt; exact HL).
  unfold_m. rewrite Hr. reflexivity.
Qed.

(** A size that does not fit in four bytes: [to_bytes] raises right after
    the START byte. *)
Lemma hs_body_overflow L rc i :
  2 ^ 32 <= L ->
  hs_body E L rc i =
  ([ResetIn; Sleep 100; Write [CMD_START]; Flush; Sleep 50], i, Raise OverflowError).
Proof.
  intros HL. unfold hs_body, to_bytes.
  replace (L <? 2 ^ (8 * N.of_nat 4)) with false by (symmetry; apply N.ltb_ge; exact HL).
  reflexivity.
Qed.

Lemma hs_loop_stop fuel L rc ar i :
  (max_retries <= rc \/ ar = true) ->
  hs_loop E fuel L rc ar i = ([], i, Ret ar).
Proof.
  intro H.
  assert (Hc : (rc <? max_retries) && negb ar = false).
  { destruct H as [H|H].
    - apply N.ltb_ge in H. rewrite H. reflexivity.
    - subst ar. apply andb_false_r. }
  destruct fuel; cbn [hs_loop]; rewrite Hc; reflexivity.
Qed.

Lemma hs_loop_step fuel L rc i :
  rc < max_retries ->
  hs_loop E (S fuel) L rc false i =
  bind (hs_body E L rc) (fun p => hs_loop E fuel L (fst p) (snd p)) i.
Proof.
  intro H. cbn [hs_loop].
  replace ((rc <? max_retries) && negb false) with true
    by (apply N.ltb_lt in H; rewrite H; reflexivity).
  reflexivity.
Qed.

(** The writes of the handshake are whole START attempts, one per read. *)
Lemma hs_loop_writes fuel L rc ar i evs j r :
  L < 2 ^ 32 ->
  hs_loop E fuel L rc ar i = (evs, j, r) ->
  (i <= j)%nat /\ writes evs = concat (repeat (attempt_writes L) (j - i)).
Proof.
  intro HL. revert rc ar i evs j r.
  induction fuel as [|fuel IH]; intros rc ar i evs j r Hrun.
  - destruct (N.lt_ge_cases rc max_retries) as [Hlt|Hge]; [destruct ar|].
    + rewrite hs_loop_stop in Hrun by auto. injection Hrun as <- <- _.
      rewrite Nat.sub_diag. split; reflexivity.
    + cbn [hs_loop] in Hrun.
      replace ((rc <? max_retries) && negb false) with true in Hrun
        by (apply N.ltb_lt in Hlt; rewrite Hlt; reflexivity).
      injection Hrun as <- <- _. rewrite Nat.sub_diag. split; reflexivity.
    + rewrite hs_loop_stop in Hrun by auto. injection Hrun as <- <- _.
      rewrite Nat.sub_diag. split; reflexivity.
  - destruct (N.lt_ge_cases rc max_retries) as [Hlt|Hge]; [destruct ar|].
    + rewrite hs_loop_stop in Hrun by auto. injection Hrun as <- <- _.
      rewrite Nat.sub_diag. split; reflexivity.
    + rewrite hs_loop_step in Hrun by exact Hlt. rewrite bind_eq in Hrun.
      destruct (remote E i) as [l|e] eqn:Hr.
      * destruct (hs_body_bytes L rc i l HL Hr) as (tail & rc' & ar' & Hb & Ht & _).
        rewrite Hb in Hrun. cbn [fst snd] in Hrun.
        destruct (hs_loop E fuel L rc' ar' (S i)) as [[e2 i2] r2] eqn:Hl.
        injection Hrun as <- <- _.
        destruct (IH _ _ _ _ _ _ Hl) as [Hij Hw].
        split; [lia|].
        unfold writes in *. cbn [flat_map app]. rewrite flat_map_app, Ht, Hw.
        replace (i2 - i)%nat with (S (i2 - S i)) by lia. reflexivity.
      * rewrite (hs_body_raise L rc i e HL Hr) in Hrun.
        injection Hrun as <- <- _.
        replace (S i - i)%nat with 1%nat by lia. split; [lia|reflexivity].
    + rewrite hs_loop_stop in Hrun by auto. injection Hrun as <- <- _.
      rewrite Nat.sub_diag. split; reflexivity.
Qed.

(** Against a device whose every handshake answer is empty or holds an
    ACK byte, the START loop ends within [50 - retry_count] iterations. *)
Lemma hs_loop_terminates fuel L rc i :
  rc <= max_retries ->
  (N.to_nat (max_retries - rc) <= fuel)%nat ->
  (forall k, (i <= k)%nat -> exists l, remote E k = RBytes l /\
     (firstn 10 l = [] \/ has_ack (firstn 10 l) = true)) ->
  exists evs j r, hs_loop E fuel L rc false i = (evs, j, r) /\ r <> Diverge.
Proof.
  revert rc i. induction fuel as [|fuel IH]; intros rc i Hrc Hfuel Hrem.
  - assert (rc = max_retries) by (unfold max_retries in *; lia). subst rc.
    rewrite hs_loop_stop by (left; lia).
    do 3 eexists. split; [reflexivity|discriminate].
  - destruct (N.lt_ge_cases rc max_retries) as [Hlt|Hge].
    + rewrite hs_loop_step by exact Hlt. rewrite bind_eq.
      destruct (N.lt_ge_cases L (2 ^ 32)) as [HL|HL].
      * destruct (Hrem i (le_n i)) as (l & Hr & Hl).
        destruct (hs_body_bytes L rc i l HL Hr)
          as (tail & rc' & ar' & Hb & _ & Hempty & Hfull).
        rewrite Hb. cbn [fst snd].
        destruct (list_eq_dec Byte.byte_eq_dec (firstn 10 l) []) as [He|Hne].
        -- destruct (Hempty He) as [-> ->].
           destruct (IH (rc + 1) (S i)) as (evs & j & r & Hrun & Hr').
           ++ unfold max_retries in *; lia.
           ++ unfold max_retries in *; lia.
           ++ intros k Hk. apply Hrem. lia.
           ++ rewrite Hrun. do 3 eexists. split; [reflexivity|exact Hr'].
        -- destruct (Hfull Hne) as [-> ->].
           destruct Hl as [Hl|Hl]; [contradiction|]. rewrite Hl.
           rewrite hs_loop_stop by (right; reflexivity).
           do 3 eexists. split; [reflexivity|discriminate].
      * rewrite (hs_body_overflow L rc i HL).
        do 3 eexists. split; [reflexivity|discriminate].
    + rewrite hs_loop_stop by (left; exact Hge).
      do 3 eexists. split; [reflexivity|discriminate].
Qed.

(** Against a device that always answers with bytes but never with an ACK,
    the START loop never ends, whatever the iteration budget. *)
Lemma hs_loop_diverges fuel L rc i :
  L < 2 ^ 32 ->
  rc < max_retries ->
  (forall k, (i <= k)%nat -> exists l, remote E k = RBytes l /\
     firstn 10 l <> [] /\ has_ack (firstn 10 l) = false) ->
  snd (hs_loop E fuel L rc false i) = Diverge.
Proof.
  intros HL. revert i. induction fuel as [|fuel IH]; intros i Hrc Hrem.
  - cbn [hs_loop].
    replace ((rc <? max_retries) && negb false) with true
      by (apply N.ltb_lt in Hrc; rewrite Hrc; reflexivity).
    reflexivity.
  - rewrite hs_loop_step by exact Hrc. rewrite bind_eq.
    destruct (Hrem i (le_n i)) as (l & Hr & Hne & Hna).
    destruct (hs_body_bytes L rc i l HL Hr)
      as (tail & rc' & ar' & Hb & _ & _ & Hfull).
    rewrite Hb. cbn [fst snd].
    destruct (Hfull Hne) as [-> ->]. rewrite Hna.
    specialize (IH (S i) Hrc).
    destruct (hs_loop E fuel L rc false (S i)) as [[e2 i2] r2].
    cbn in IH |- *. apply IH. intros k Hk. apply Hrem. lia.
Qed.



Lemma transfer_eq f fuel i :
  transfer E f fuel i =
  match hs_loop E fuel (fsize f) 0 false i with
  | (h, j, Ret true) =>
      match data_loop E (S (N.to_nat (fsize f / CHUNK_SIZE))) f (fsize f) 0 0 j with
      | (d, j', Ret true) => (Print MSendingStart :: h ++ d ++ end_events, j', Ret true)
      | (d, j', Ret false) => (Print MSendingStart :: h ++ d, j', Ret false)
      | (d, j', Raise e) => (Print MSendingStart :: h ++ d, j', Raise e)
      | (d, j', Diverge) => (Print MSendingStart :: h ++ d, j', Diverge)
      end
  | (h, j, Ret false) =>
      (Print MSendingStart :: h ++ [Print (MNoAckAfter max_retries); Close], j, Ret false)
  | (h, j, Raise e) => (Print MSendingStart :: h, j, Raise e)
  | (h, j, Diverge) => (Print MSendingStart :: h, j, Diverge)
  end.
Proof.
  unfold transfer. rewrite bind_eq. cbn -[hs_loop data_loop].
  rewrite bind_eq.
  destruct (hs_loop E fuel (fsize f) 0 false i) as [[h j] [[|]|e|]]; try reflexivity.
  cbn -[data_loop]. rewrite bind_eq.
  destruct (data_loop _ _ _ _ _ _ j) as [[d j'] [[|]|e|]]; cbn;
    rewrite ?app_nil_r; reflexivity.
Qed.

Lemma session_eq port baud f fuel :
  session E port baud f fuel 0%nat =
  match serial_open E port baud with
  | Some e => ([], 0%nat, Raise e)
  | None =>
      match remote E 0%nat with
      | RRaise e => (open_events port baud, 1%nat, Raise e)
      | RBytes r0 =>
          let '(e, j, r) := transfer E f fuel 1%nat in
          (mode_events port baud (firstn 4 r0) ++ e, j, r)
      end
  end.
Proof.
  destruct (serial_open E port baud) as [e|] eqn:Ho.
  - unfold session. rewrite Ho. reflexivity.
  - destruct (remote E 0%nat) as [r0|e] eqn:Hr.
    + apply session_transfer; assumption.
    + unfold session, mode_select. rewrite Ho.
      unfold print, ser_write, ser_read, sleep. unfold bind, emit, ret.
      cbn -[transfer]. rewrite Hr. reflexivity.
Qed.

Lemma data_loop_step_raise fuel f t i e :
  t < fsize f ->
  remote E i = RRaise e ->
  data_loop E (S fuel) f (fsize f) t t i =
  (chunk_events (read_at f t CHUNK_SIZE), S i, Raise e).
Proof.
  intros Hlt Hr. cbn [data_loop].
  replace (t <? fsize f) with true by (symmetry; now apply N.ltb_lt).
  set (c := read_at f t CHUNK_SIZE).
  assert (Hc0 : Nat.eqb (length c) 0 = false)
    by (apply Nat.eqb_neq, read_at_chunk_pos, Hlt).
  rewrite Hc0. unfold to_bytes.
  replace (N.of_nat (length c) <? 2 ^ (8 * N.of_nat 2)) with true
    by (symmetry; apply N.ltb_lt; pose proof (read_at_chunk_le f t); simpl; fold c in H; lia).
  unfold_m. rewrite Hr. reflexivity.
Qed.

(** A DATA loop that ends with [True] sent every chunk, each acknowledged. *)
Lemma data_loop_true fuel f t i d j :
  t <= fsize f ->
  (N.to_nat ((fsize f - t + 255) / 256) <= fuel)%nat ->
  data_loop E fuel f (fsize f) t t i = (d, j, Ret true) ->
  d = data_events (fsize f) t (chunks_from fuel f t) /\
  j = (i + length (chunks_from fuel f t))%nat.
Proof.
  revert t i d j; induction fuel as [|fuel IH]; intros t i d j Hle Hfuel Hrun.
  - assert (fsize f <= t) by narith.
    rewrite data_loop_end in Hrun by assumption. injection Hrun as <- <-.
    rewrite chunks_from_nil by assumption. cbn. split; [reflexivity|lia].
  - destruct (N.lt_ge_cases t (fsize f)) as [Hlt|Hge].
    + rewrite chunks_from_cons by assumption.
      destruct (remote E i) as [[|a l]|e] eqn:Hr.
      * rewrite (data_loop_step_nack fuel f t i [] Hlt Hr) in Hrun
          by (intros l' H; discriminate H).
        discriminate Hrun.
      * destruct (Byte.eqb a CMD_ACK) eqn:Ha.
        -- apply Byte.byte_dec_bl in Ha. subst a.
           rewrite (data_loop_step_ack fuel f t i l Hlt Hr) in Hrun. cbv zeta in Hrun.
           destruct (ceil_step (fsize f) t Hlt) as [Hs H1].
           destruct (data_loop E fuel f (fsize f) _ _ (S i)) as [[e2 i2] r2] eqn:Hl.
           injection Hrun as <- <- ->.
           assert (Hle' : t + N.of_nat (length (read_at f t CHUNK_SIZE)) <= fsize f)
             by (rewrite length_chunk; lia).
           assert (Hf' : (N.to_nat ((fsize f - (t + N.of_nat (length (read_at f t CHUNK_SIZE)))
                                     + 255) / 256) <= fuel)%nat)
             by (rewrite length_chunk, Hs; lia).
           destruct (IH _ _ _ _ Hle' Hf' Hl) as [-> ->].
           cbn [data_events length]. split; [reflexivity|lia].
        -- rewrite (data_loop_step_nack fuel f t i (a :: l) Hlt Hr) in Hrun.
           ++ discriminate Hrun.
           ++ intros l' H. injection H as Heq _. subst a.
              rewrite Byte.byte_dec_lb in Ha by reflexivity. discriminate Ha.
      * rewrite (data_loop_step_raise fuel f t i e Hlt Hr) in Hrun. discriminate Hrun.
    + rewrite data_loop_end in Hrun by assumption. injection Hrun as <- <-.
      rewrite chunks_from_nil by assumption. cbn. split; [reflexivity|lia].
Qed.

(** A size of four bytes or more never lets the handshake succeed. *)
Lemma hs_loop_overflow fuel L rc i :
  2 ^ 32 <= L -> rc < max_retries ->
  snd (hs_loop E fuel L rc false i) = Diverge \/
  hs_loop E fuel L rc false i =
  ([ResetIn; Sleep 100; Write [CMD_START]; Flush; Sleep 50], i, Raise OverflowError).
Proof.
  intros HL Hrc. destruct fuel as [|fuel].
  - left. cbn [hs_loop].
    replace ((rc <? max_retries) && negb false) with true
      by (apply N.ltb_lt in Hrc; rewrite Hrc; reflexivity).
    reflexivity.
  - right. rewrite hs_loop_step by exact Hrc. rewrite bind_eq.
    rewrite (hs_body_overflow L rc i HL). reflexivity.
Qed.

(** The successful path of a whole call. *)
Lemma send_success port baud name f fuel evs j :
  fs E name = Some f ->
  send_font_file E port baud name fuel = (evs, j, Ret true) ->
  exists r0 h jh d,
    serial_open E port baud = None /\
    remote E 0%nat = RBytes r0 /\
    hs_loop E fuel (fsize f) 0 false 1%nat = (h, jh, Ret true) /\
    data_loop E (S (N.to_nat (fsize f / CHUNK_SIZE))) f (fsize f) 0 0 jh
      = (d, j, Ret true) /\
    evs = [Print (MFontFile name); Print (MFileSize (fsize f))]
            ++ mode_events port baud (firstn 4 r0)
            ++ Print MSendingStart :: h ++ d ++ end_events.
Proof.
  intros Hf Hrun. rewrite (send_font_file_exists port baud name f fuel Hf) in Hrun.
  rewrite session_eq in Hrun.
  destruct (serial_open E port baud) as [e|] eqn:Ho.
  { destruct (is_Exception e); discriminate Hrun. }
  destruct (remote E 0%nat) as [r0|e] eqn:Hr.
  2:{ destruct (is_Exception e); discriminate Hrun. }
  rewrite transfer_eq in Hrun.
  destruct (hs_loop E fuel (fsize f) 0 false 1%nat) as [[h jh] [[|]|e|]] eqn:Hh;
    [|discriminate Hrun|destruct (is_Exception e); discriminate Hrun|discriminate Hrun].
  destruct (data_loop _ _ _ _ _ _ jh) as [[d j'] [[|]|e|]] eqn:Hd;
    [|discriminate Hrun|destruct (is_Exception e); discriminate Hrun|discriminate Hrun].
  injection Hrun as <- <-.
  exists r0, h, jh, d. repeat split; auto.
Qed.

Lemma writes_app l1 l2 : writes (l1 ++ l2) = writes l1 ++ writes l2.
Proof. unfold writes. apply flat_map_app. Qed.

Lemma data_packets_skip w ws :
  w <> [CMD_DATA] -> data_packets (w :: ws) = data_packets ws.
Proof.
  intro Hw. cbn [data_packets].
  destruct w as [|b [|b' w]]; try reflexivity.
  destruct ws as [|x [|ch rest]]; try reflexivity.
  destruct (Byte.eqb b CMD_DATA) eqn:Hb; [|reflexivity].
  apply Byte.byte_dec_bl in Hb. subst b. contradiction.
Qed.

Lemma data_packets_skip_all ws rest :
  Forall (fun w => w <> [CMD_DATA]) ws ->
  data_packets (ws ++ rest) = data_packets rest.
Proof.
  induction 1 as [|w ws Hw _ IH]; [reflexivity|].
  cbn [app]. rewrite data_packets_skip by exact Hw. exact IH.
Qed.

Lemma le_bytes_length w n : length (le_bytes w n) = w.
Proof. revert n; induction w; intro n; cbn; [reflexivity|now rewrite IHw]. Qed.

Lemma attempts_not_data L n :
  Forall (fun w => w <> [CMD_DATA]) (concat (repeat (attempt_writes L) n)).
Proof.
  induction n as [|n IH]; [constructor|].
  cbn [repeat concat]. apply Forall_app. split; [|exact IH].
  constructor; [discriminate|]. constructor; [|constructor].
  intro H. apply (f_equal (@length _)) in H. rewrite le_bytes_length in H.
  discriminate H.
Qed.

Lemma data_packets_events L t cs rest :
  data_packets (writes (data_events L t cs) ++ rest) = cs ++ data_packets rest.
Proof.
  revert t; induction cs as [|c cs IH]; intro t; [reflexivity|].
  cbn [data_events]. rewrite writes_app.
  change (writes (Print (MProgress (t + N.of_nat (length c)) L)
                   :: data_events L (t + N.of_nat (length c)) cs))
    with (writes (data_events L (t + N.of_nat (length c)) cs)).
  rewrite <- app_assoc.
  change (writes (chunk_events c))
    with [[CMD_DATA]; le_bytes 2 (N.of_nat (length c)); c].
  cbn [app data_packets].
  rewrite Byte.byte_dec_lb by reflexivity. rewrite IH. reflexivity.
Qed.

Lemma hs_true_small fuel L i h j :
  hs_loop E fuel L 0 false i = (h, j, Ret true) -> L < 2 ^ 32.
Proof.
  intro H. destruct (N.lt_ge_cases L (2 ^ 32)) as [HL|HL]; [exact HL|].
  destruct (hs_loop_overflow fuel L 0 i HL) as [Hd|Ho].
  - reflexivity.
  - rewrite H in Hd. discriminate Hd.
  - rewrite H in Ho. discriminate Ho.
Qed.

Lemma writes_pre name L port baud r0 rest :
  writes ([Print (MFontFile name); Print (MFileSize L)]
            ++ mode_events port baud r0 ++ Print MSendingStart :: rest)
  = [CMD_CHINESE] :: writes rest.
Proof. reflexivity. Qed.

Lemma data_budget L :
  (N.to_nat ((L - 0 + 255) / 256) <= S (N.to_nat (L / CHUNK_SIZE)))%nat.
Proof. unfold CHUNK_SIZE. narith. Qed.

(** The DATA packets of a successful call are the chunks of the file. *)
Lemma success_packets port baud name f fuel evs j :
  fs E name = Some f ->
  send_font_file E port baud name fuel = (evs, j, Ret true) ->
  data_packets (writes evs)
  = chunks_from (S (N.to_nat (fsize f / CHUNK_SIZE))) f 0.
Proof.
  intros Hf Hrun.
  destruct (send_success port baud name f fuel evs j Hf Hrun)
    as (r0 & h & jh & d & Ho & Hr0 & Hh & Hd & ->).
  pose proof (hs_true_small _ _ _ _ _ Hh) as HL.
  destruct (hs_loop_writes _ _ _ _ _ _ _ _ HL Hh) as [_ Hw].
  destruct (data_loop_true _ _ _ _ _ _ (N.le_0_l _) (data_budget _) Hd) as [-> _].
  rewrite writes_pre, !writes_app, Hw.
  rewrite data_packets_skip by discriminate.
  rewrite data_packets_skip_all by apply attempts_not_data.
  rewrite data_packets_events. apply app_nil_r.
Qed.

Lemma packets_after_hs name L port baud r0 h rest n :
  writes h = concat (repeat (attempt_writes L) n) ->
  data_packets (writes ([Print (MFontFile name); Print (MFileSize L)]
                          ++ mode_events port baud r0
                          ++ Print MSendingStart :: h ++ rest))
  = data_packets (writes rest).
Proof.
  intro Hw. rewrite writes_pre, writes_app, Hw.
  rewrite data_packets_skip by discriminate.
  apply data_packets_skip_all, attempts_not_data.
Qed.

Lemma packets_last c rest :
  data_packets (writes (chunk_events c ++ rest)) = c :: data_packets (writes rest).
Proof.
  rewrite writes_app.
  change (writes (chunk_events c))
    with [[CMD_DATA]; le_bytes 2 (N.of_nat (length c)); c].
  cbn [app data_packets]. rewrite Byte.byte_dec_lb by reflexivity. reflexivity.
Qed.

Lemma chunks_count0 f :
  N.of_nat (length (chunks_from (S (N.to_nat (fsize f / CHUNK_SIZE))) f 0))
  = (fsize f + CHUNK_SIZE - 1) / CHUNK_SIZE /\
  sum_len (chunks_from (S (N.to_nat (fsize f / CHUNK_SIZE))) f 0) = fsize f.
Proof.
  destruct (chunks_from_count (S (N.to_nat (fsize f / CHUNK_SIZE))) f 0
              (N.le_0_l _) (data_budget _)) as [Hn Hs].
  rewrite N.sub_0_r in Hn, Hs. split; [|exact Hs].
  rewrite Hn. unfold CHUNK_SIZE. f_equal. lia.
Qed.

Lemma chunks600 g :
  chunks_from (S (N.to_nat (600 / CHUNK_SIZE))) (mkFile 600 g) 0
  = [read_at (mkFile 600 g) 0 256; read_at (mkFile 600 g) 256 256;
     read_at (mkFile 600 g) 512 256].
Proof. vm_compute. reflexivity. Qed.

(** Every START attempt begins with the input reset, the pause and the
    START byte, whatever follows. *)
Lemma hs_body_start L rc i :
  exists ev j r,
    hs_body E L rc i = (ResetIn :: Sleep 100 :: Write [CMD_START] :: ev, j, r).
Proof.
  destruct (N.lt_ge_cases L (2 ^ 32)) as [HL|HL].
  - destruct (remote E i) as [l|e] eqn:Hr.
    + destruct (hs_body_bytes L rc i l HL Hr) as (tail & rc' & ar' & Hb & _).
      rewrite Hb. do 3 eexists. reflexivity.
    + rewrite (hs_body_raise L rc i e HL Hr). do 3 eexists. reflexivity.
  - rewrite (hs_body_overflow L rc i HL). do 3 eexists. reflexivity.
Qed.

Lemma hs_loop_start fuel L i :
  exists ev j r,
    hs_loop E (S fuel) L 0 false i = (ResetIn :: Sleep 100 :: Write [CMD_START] :: ev, j, r).
Proof.
  rewrite hs_loop_step by reflexivity. rewrite bind_eq.
  destruct (hs_body_start L 0 i) as (ev & j & r & ->).
  destruct r as [p|e|].
  - destruct (hs_loop E fuel L (fst p) (snd p) j) as [[e2 j2] r2].
    do 3 eexists. reflexivity.
  - do 3 eexists. reflexivity.
  - do 3 eexists. reflexivity.
Qed.

Lemma bind_write_writes {A} bs (k : unit -> M A) i d j r :
  bind (ser_write bs) k i = (d, j, r) -> writes d = bs :: writes (fst (fst (k tt i))).
Proof.
  unfold bind, ser_write, emit. cbn.
  destruct (k tt i) as [[e2 i2] r2]. intro H. injection H as <- _ _. reflexivity.
Qed.

(** What the DATA loop writes is empty or starts with a DATA byte. *)
Lemma data_loop_writes_head fuel f L t pos i d j r :
  data_loop E fuel f L t pos i = (d, j, r) ->
  writes d = [] \/ exists tl, writes d = [CMD_DATA] :: tl.
Proof.
  intro H. destruct fuel as [|fuel]; cbn [data_loop] in H;
    destruct (t <? L); try (injection H as <- _ _; left; reflexivity).
  cbv zeta in H. destruct (Nat.eqb _ 0).
  - injection H as <- _ _. left; reflexivity.
  - right. eexists. exact (bind_write_writes _ _ _ _ _ _ H).
Qed.

Lemma send_writes_session port baud name f fuel :
  fs E name = Some f ->
  writes (trace (send_font_file E port baud name fuel))
  = writes (fst (fst (session E port baud f fuel 0%nat))).
Proof.
  intro Hf. rewrite (send_font_file_exists port baud name f fuel Hf).
  destruct (session E port baud f fuel 0%nat) as [[e j] [b|x|]];
    [|destruct (is_Exception x)|]; unfold trace; cbn [fst];
    rewrite ?writes_app; unfold handler_events;
    try destruct (is_SerialException x); cbn; rewrite ?app_nil_r; reflexivity.
Qed.

Lemma writes_mode port baud r0 h X :
  writes (mode_events port baud r0 ++ Print MSendingStart :: h ++ X)
  = [CMD_CHINESE] :: writes h ++ writes X.
Proof.
  rewrite writes_app.
  change (writes (mode_events port baud r0)) with [[CMD_CHINESE]].
  change (writes (Print MSendingStart :: h ++ X)) with (writes (h ++ X)).
  rewrite writes_app. reflexivity.
Qed.

Lemma writes_mode0 port baud r0 h :
  writes (mode_events port baud r0 ++ Print MSendingStart :: h)
  = [CMD_CHINESE] :: writes h.
Proof. rewrite <- (app_nil_r h) at 1. rewrite writes_mode. cbn [writes flat_map]. rewrite app_nil_r. reflexivity. Qed.

(** For a size that fits in four bytes, the writes of a call are the 'C'
    byte, whole START attempts (the START byte, then the length field), and
    then nothing, the END byte alone, or the DATA phase. *)
Lemma send_writes_shape port baud name f fuel :
  fs E name = Some f -> fsize f < 2 ^ 32 ->
  writes (trace (send_font_file E port baud name fuel)) = [] \/
  exists n rest,
    writes (trace (send_font_file E port baud name fuel))
      = [CMD_CHINESE] :: concat (repeat (attempt_writes (fsize f)) n) ++ rest /\
    (rest = [] \/ rest = [[CMD_END]] \/ exists tl, rest = [CMD_DATA] :: tl).
Proof.
  intros Hf HL. rewrite (send_writes_session port baud name f fuel Hf), session_eq.
  destruct (serial_open E port baud) as [e|]; [left; reflexivity|].
  destruct (remote E 0%nat) as [r0|e].
  2:{ right. exists 0%nat, []. split; [reflexivity|left; reflexivity]. }
  rewrite transfer_eq.
  destruct (hs_loop E fuel (fsize f) 0 false 1%nat) as [[h jh] rh] eqn:Hh.
  destruct (hs_loop_writes _ _ _ _ _ _ _ _ HL Hh) as [_ Hw].
  right. exists (jh - 1)%nat.
  destruct rh as [[|]|e|].
  - destruct (data_loop _ _ _ _ _ _ jh) as [[d j'] rd] eqn:Hd.
    destruct (data_loop_writes_head _ _ _ _ _ _ _ _ _ Hd) as [Hd0|[tl Hd1]].
    + destruct rd as [[|]|e|]; cbn [fst];
        [exists [[CMD_END]]|exists []|exists []|exists []];
        (split; [rewrite writes_mode, ?writes_app, Hw, Hd0; reflexivity|]);
        auto.
    + destruct rd as [[|]|e|]; cbn [fst];
        eexists; (split; [rewrite writes_mode, ?writes_app, Hw, Hd1; reflexivity|]);
        right; right; eexists; reflexivity.
  - exists []. cbn [fst]. rewrite writes_mode, Hw. split; [reflexivity|left; reflexivity].
  - exists []. cbn [fst]. rewrite writes_mode0, Hw, app_nil_r. split; [reflexivity|left; reflexivity].
  - exists []. cbn [fst]. rewrite writes_mode0, Hw, app_nil_r. split; [reflexivity|left; reflexivity].
Qed.

(** For a size that does not fit in four bytes, a call writes at most the
    'C' byte and one START byte, and never succeeds. *)
Lemma send_writes_big port baud name f fuel :
  fs E name = Some f -> 2 ^ 32 <= fsize f ->
  writes (trace (send_font_file E port baud name fuel)) = [] \/
  writes (trace (send_font_file E port baud name fuel)) = [[CMD_CHINESE]] \/
  writes (trace (send_font_file E port baud name fuel)) = [[CMD_CHINESE]; [CMD_START]].
Proof.
  intros Hf HL. rewrite (send_writes_session port baud name f fuel Hf), session_eq.
  destruct (serial_open E port baud) as [e|]; [left; reflexivity|].
  destruct (remote E 0%nat) as [r0|e]; [|right; left; reflexivity].
  rewrite transfer_eq. destruct fuel as [|fuel].
  - assert (Hh : hs_loop E 0 (fsize f) 0 false 1%nat = ([], 1%nat, Diverge))
      by reflexivity.
    rewrite Hh. cbn [fst]. rewrite writes_mode0. right; left; reflexivity.
  - assert (Hh : hs_loop E (S fuel) (fsize f) 0 false 1%nat =
                 ([ResetIn; Sleep 100; Write [CMD_START]; Flush; Sleep 50], 1%nat,
                  Raise OverflowError)).
    { rewrite hs_loop_step by reflexivity. rewrite bind_eq, hs_body_overflow by exact HL.
      reflexivity. }
    rewrite Hh. cbn [fst]. rewrite writes_mode0. right; right; reflexivity.
Qed.

Lemma send_true_small port baud name f fuel :
  fs E name = Some f ->
  result (send_font_file E port baud name fuel) = Ret true -> fsize f < 2 ^ 32.
Proof.
  intros Hf H.
  destruct (send_font_file E port baud name fuel) as [[evs j] r] eqn:Hs.
  cbn in H. subst r.
  destruct (send_success port baud name f fuel evs j Hf Hs)
    as (r0 & h & jh & d & _ & _ & Hh & _).
  exact (hs_true_small _ _ _ _ _ Hh).
Qed.

Lemma send_observable port baud name f fuel :
  fs E name = Some f ->
  (writes (trace (send_font_file E port baud name fuel)),
   result (send_font_file E port baud name fuel))
  = observe (serial_open E port baud) (remote E 0%nat) (transfer E f fuel 1%nat).
Proof.
  intro Hf. rewrite (send_font_file_exists port baud name f fuel Hf), session_eq.
  unfold observe, catch.
  destruct (serial_open E port baud) as [e|].
  - destruct (is_Exception e) eqn:He; unfold trace, result; cbn [fst snd];
      [unfold handler_events; destruct (is_SerialException e)|]; reflexivity.
  - destruct (remote E 0%nat) as [r0|e].
    + destruct (transfer E f fuel 1%nat) as [[ev j] [b|x|]]; cbn [fst snd];
        [|destruct (is_Exception x) eqn:Hx|]; unfold trace, result; cbn [fst snd];
        rewrite ?writes_app; try (unfold handler_events; destruct (is_SerialException x));
        cbn; rewrite ?app_nil_r; reflexivity.
    + destruct (is_Exception e) eqn:He; unfold trace, result; cbn [fst snd];
        [unfold handler_events; destruct (is_SerialException e)|]; reflexivity.
Qed.

End Proofs.

Lemma wire_writes evs : wire evs = concat (writes evs).
Proof.
  unfold wire, writes. induction evs as [|ev evs IH]; [reflexivity|].
  cbn [flat_map]. rewrite concat_app, <- IH.
  destruct ev; cbn [concat]; rewrite ?app_nil_r; reflexivity.
Qed.

(** The handshake and the transfer read the environment only through the
    device. *)
Lemma transfer_remote E1 E2 f fuel i :
  remote E1 = remote E2 -> transfer E1 f fuel i = transfer E2 f fuel i.
Proof.
  destruct E1 as [fs1 so1 r1], E2 as [fs2 so2 r2]. cbn. intros ->. reflexivity.
Qed.

Lemma read_at_agree f1 f2 :
  fsize f1 = fsize f2 ->
  (forall k, k < fsize f1 -> fbyte f1 k = fbyte f2 k) ->
  read_at f1 = read_at f2.
Proof.
  intros Hs Hb. extensionality pos. extensionality n.
  unfold read_at. rewrite <- Hs. apply map_ext_in. intros k Hk.
  apply in_seq in Hk. apply Hb. lia.
Qed.

Lemma data_loop_agree E f1 f2 :
  read_at f1 = read_at f2 ->
  forall fuel L t pos, data_loop E fuel f1 L t pos = data_loop E fuel f2 L t pos.
Proof.
  intros Hr fuel. induction fuel as [|fuel IH]; intros L t pos; [reflexivity|].
  cbn [data_loop]. rewrite Hr, IH. reflexivity.
Qed.

Lemma transfer_agree E f1 f2 fuel i :
  fsize f1 = fsize f2 ->
  (forall k, k < fsize f1 -> fbyte f1 k = fbyte f2 k) ->
  transfer E f1 fuel i = transfer E f2 fuel i.
Proof.
  intros Hs Hb. unfold transfer.
  rewrite (data_loop_agree E f1 f2 (read_at_agree f1 f2 Hs Hb)), Hs. reflexivity.
Qed.

(** ** Claims *)

(** C1: for every payload length L, a successful transfer emits exactly
    ceil(L/256) DATA packets, each of at most 256 bytes, and their lengths
    add up to L (so an empty file sends no DATA packet). *)
Theorem send_chunks_count (E : env) port baud name f fuel evs j :
  fs E name = Some f ->
  send_font_file E port baud name fuel = (evs, j, Ret true) ->
  N.of_nat (length (data_packets (writes evs)))
    = (fsize f + CHUNK_SIZE - 1) / CHUNK_SIZE /\
  Forall (fun c => (length c <= 256)%nat) (data_packets (writes evs)) /\
  sum_len (data_packets (writes evs)) = fsize f.
Proof.
  intros Hf Hrun. rewrite (success_packets E port baud name f fuel evs j Hf Hrun).
  destruct (chunks_from_count (S (N.to_nat (fsize f / CHUNK_SIZE))) f 0
              (N.le_0_l _) (data_budget _)) as [Hn Hs].
  rewrite N.sub_0_r in Hn, Hs.
  split; [|split].
  - rewrite Hn. unfold CHUNK_SIZE. f_equal. lia.
  - apply chunks_from_le256.
  - exact Hs.
Qed.

Lemma send_chunks_count_witness :
  N.of_nat (length (data_packets (writes (trace
    (send_font_file (test_env (zero_file 600) acking) "COM4"%string 115200%Z
       "font.bin"%string 5)))))
    = (fsize (zero_file 600) + CHUNK_SIZE - 1) / CHUNK_SIZE /\
  Forall (fun c => (length c <= 256)%nat) (data_packets (writes (trace
    (send_font_file (test_env (zero_file 600) acking) "COM4"%string 115200%Z
       "font.bin"%string 5)))) /\
  sum_len (data_packets (writes (trace
    (send_font_file (test_env (zero_file 600) acking) "COM4"%string 115200%Z
       "font.bin"%string 5)))) = fsize (zero_file 600).
Proof.
  apply (send_chunks_count (test_env (zero_file 600) acking) "COM4"%string 115200%Z
           "font.bin"%string (zero_file 600) 5
           (trace (send_font_file (test_env (zero_file 600) acking) "COM4"%string
                     115200%Z "font.bin"%string 5))
           (snd (fst (send_font_file (test_env (zero_file 600) acking) "COM4"%string
                        115200%Z "font.bin"%string 5)))).
  - reflexivity.
  - vm_compute. reflexivity.
Defined.

(** C4: when the ACK read after DATA chunk k (k >= 1) returns no byte or a
    byte other than ACK, the call stops there and returns False; the trace
    ends with that read, the "No ACK at" message and the close, and the
    total in the message is the sum of the lengths of chunks 1..k-1, chunk
    k being on the wire but not counted. *)
Theorem send_nack_total (E : env) port baud name f fuel r0 h jh k l :
  fs E name = Some f ->
  serial_open E port baud = None ->
  remote E 0%nat = RBytes r0 ->
  hs_loop E fuel (fsize f) 0 false 1%nat = (h, jh, Ret true) ->
  (1 <= k)%nat ->
  N.of_nat k <= (fsize f + CHUNK_SIZE - 1) / CHUNK_SIZE ->
  (forall m, (m < k - 1)%nat ->
     exists l', remote E (jh + m)%nat = RBytes (CMD_ACK :: l')) ->
  remote E (jh + (k - 1))%nat = RBytes l ->
  (forall l', l <> CMD_ACK :: l') ->
  result (send_font_file E port baud name fuel) = Ret false /\
  length (data_packets (writes (trace (send_font_file E port baud name fuel)))) = k /\
  exists pre,
    trace (send_font_file E port baud name fuel)
    = pre ++ [Read 1; Print (MNoAckAt (sum_len (firstn (k - 1)
                (data_packets (writes (trace (send_font_file E port baud name fuel)))))));
              Close].
Proof.
  intros Hf Ho Hr0 Hh Hk1 Hk Hack Hl Hn.
  set (cs0 := chunks_from (S (N.to_nat (fsize f / CHUNK_SIZE))) f 0).
  destruct (chunks_count0 f) as [Hcnt _]. fold cs0 in Hcnt.
  assert (Hlt : (k - 1 < length cs0)%nat) by lia.
  pose proof (data_loop_nack E (k - 1) (S (N.to_nat (fsize f / CHUNK_SIZE))) f 0 jh l
                (N.le_0_l _) Hlt Hack Hl Hn) as Hd.
  fold cs0 in Hd.
  set (c := nth (k - 1) cs0 []) in Hd.
  set (pre := [Print (MFontFile name); Print (MFileSize (fsize f))]
                ++ mode_events port baud (firstn 4 r0)
                ++ Print MSendingStart :: h
                ++ data_events (fsize f) 0 (firstn (k - 1) cs0)
                ++ [Write [CMD_DATA]; Sleep 10;
                    Write (le_bytes 2 (N.of_nat (length c))); Sleep 10; Write c;
                    Sleep 50]).
  assert (Hrun : send_font_file E port baud name fuel =
    ([Print (MFontFile name); Print (MFileSize (fsize f))]
       ++ mode_events port baud (firstn 4 r0)
       ++ Print MSendingStart :: h
       ++ data_events (fsize f) 0 (firstn (k - 1) cs0) ++ chunk_events c
       ++ [Print (MNoAckAt (0 + sum_len (firstn (k - 1) cs0))); Close],
     (jh + (k - 1) + 1)%nat, Ret false)).
  { rewrite (send_font_file_exists E port baud name f fuel Hf), session_eq, Ho, Hr0.
    rewrite transfer_eq, Hh. fold cs0. rewrite Hd. reflexivity. }
  pose proof (hs_true_small E _ _ _ _ _ Hh) as HL.
  destruct (hs_loop_writes E _ _ _ _ _ _ _ _ HL Hh) as [_ Hw].
  assert (Hcs : data_packets (writes (trace (send_font_file E port baud name fuel)))
                = firstn (k - 1) cs0 ++ [c]).
  { rewrite Hrun. unfold trace. cbn [fst].
    rewrite (packets_after_hs name (fsize f) port baud (firstn 4 r0) h _ _ Hw).
    rewrite writes_app, data_packets_events, packets_last. reflexivity. }
  assert (Hlen : length (firstn (k - 1) cs0) = (k - 1)%nat)
    by (apply firstn_length_le; lia).
  rewrite Hcs. split; [|split].
  - rewrite Hrun. reflexivity.
  - rewrite length_app, Hlen. cbn [length]. lia.
  - exists pre. rewrite Hrun. unfold trace, pre. cbn [fst].
    replace (firstn (k - 1) (firstn (k - 1) cs0 ++ [c]))
      with (firstn (k - 1) cs0)
      by (pose proof (firstn_app_2 0 (firstn (k - 1) cs0) [c]) as X;
          rewrite Nat.add_0_r, Hlen in X; cbn [firstn] in X;
          rewrite app_nil_r in X; symmetry; exact X).
    rewrite N.add_0_l. unfold chunk_events.
    repeat (rewrite <- app_assoc || rewrite <- app_comm_cons). reflexivity.
Qed.

Lemma send_nack_total_witness :
  result (send_font_file (test_env (zero_file 600) (nack_at 3)) "COM4"%string 115200%Z
            "font.bin"%string 5) = Ret false /\
  length (data_packets (writes (trace (send_font_file (test_env (zero_file 600) (nack_at 3))
            "COM4"%string 115200%Z "font.bin"%string 5)))) = 2%nat /\
  exists pre,
    trace (send_font_file (test_env (zero_file 600) (nack_at 3)) "COM4"%string 115200%Z
             "font.bin"%string 5)
    = pre ++ [Read 1; Print (MNoAckAt (sum_len (firstn (2 - 1)
                (data_packets (writes (trace (send_font_file
                   (test_env (zero_file 600) (nack_at 3)) "COM4"%string 115200%Z
                   "font.bin"%string 5))))))); Close].
Proof.
  apply (send_nack_total (test_env (zero_file 600) (nack_at 3)) "COM4"%string 115200%Z
           "font.bin"%string (zero_file 600) 5 [CMD_ACK]
           (fst (fst (hs_loop (test_env (zero_file 600) (nack_at 3)) 5 600 0 false 1%nat)))
           2 2 [x00]).
  - reflexivity.
  - reflexivity.
  - reflexivity.
  - vm_compute. reflexivity.
  - lia.
  - apply N.leb_le. reflexivity.
  - intros m Hm. exists []. assert (m = 0%nat) by lia. subst m. reflexivity.
  - reflexivity.
  - intros l' H. injection H as H _. discriminate H.
Defined.

(** C6: when the font file does not exist, the call prints the error and
    returns False: the port is never opened, nothing is written and nothing
    is read. *)
Theorem send_missing_file (E : env) port baud name fuel :
  fs E name = None ->
  send_font_file E port baud name fuel = ([Print (MFileNotFound name)], 0%nat, Ret false).
Proof.
  intro Hf. unfold send_font_file, send_font_file_m. rewrite Hf. reflexivity.
Qed.

Lemma send_missing_file_witness :
  send_font_file (mkEnv (fun _ => None) (fun _ _ => None) acking) "COM4"%string 115200%Z
    "font.bin"%string 5 = ([Print (MFileNotFound "font.bin"%string)], 0%nat, Ret false).
Proof.
  apply send_missing_file. reflexivity.
Defined.

(** C7: a 600-byte file sent to a device that acknowledges everything
    goes out as three DATA packets of 256, 256 and 88 bytes, in file order;
    the DATA phase is three packets each followed by one 1-byte ACK read,
    after which END is written and the call returns True (five reads in
    all: the mode-select read, one handshake read and the three ACK
    reads). *)
Theorem send_600_scenario (E : env) port baud name g fuel :
  fs E name = Some (mkFile 600 g) ->
  serial_open E port baud = None ->
  (forall k, remote E k = RBytes [CMD_ACK]) ->
  let r := send_font_file E port baud name (S fuel) in
  result r = Ret true /\
  data_packets (writes (trace r))
    = [read_at (mkFile 600 g) 0 256; read_at (mkFile 600 g) 256 256;
       read_at (mkFile 600 g) 512 256] /\
  map (@length byte) (data_packets (writes (trace r))) = [256; 256; 88]%nat /\
  (exists pre, trace r = pre ++ data_events 600 0 (data_packets (writes (trace r)))
                           ++ end_events) /\
  snd (fst r) = 5%nat.
Proof.
  intros Hf Ho Hr r.
  set (f := mkFile 600 g).
  assert (HL : fsize f < 2 ^ 32) by reflexivity.
  destruct (hs_body_bytes E (fsize f) 0 1 [CMD_ACK] HL (Hr 1%nat))
    as (tail & rc' & ar' & Hb & Ht & _ & Hfull).
  destruct (Hfull ltac:(discriminate)) as [-> ->].
  assert (Hh : hs_loop E (S fuel) (fsize f) 0 false 1%nat
               = (hs_prefix (fsize f) ++ tail, 2%nat, Ret true)).
  { rewrite hs_loop_step by reflexivity. rewrite bind_eq, Hb.
    cbn [fst snd]. rewrite hs_loop_stop by (right; reflexivity).
    rewrite app_nil_r. reflexivity. }
  pose proof (data_loop_acked E (S (N.to_nat (fsize f / CHUNK_SIZE))) f 0 2
                (N.le_0_l _) (data_budget _)) as Hd.
  unfold f in Hd. rewrite chunks600 in Hd.
  specialize (Hd ltac:(intros k _; exists []; apply Hr)).
  assert (Hrun : r =
    ([Print (MFontFile name); Print (MFileSize (fsize f))]
       ++ mode_events port baud [CMD_ACK]
       ++ Print MSendingStart :: (hs_prefix (fsize f) ++ tail)
       ++ data_events 600 0 [read_at f 0 256; read_at f 256 256; read_at f 512 256]
       ++ end_events, 5%nat, Ret true)).
  { unfold r. rewrite (send_font_file_exists E port baud name f (S fuel) Hf), session_eq, Ho, Hr.
    rewrite transfer_eq, Hh. unfold f. rewrite Hd. cbv beta iota zeta. reflexivity. }
  destruct (hs_loop_writes E _ _ _ _ _ _ _ _ HL Hh) as [_ Hw].
  assert (Hcs : data_packets (writes (trace r))
                = [read_at f 0 256; read_at f 256 256; read_at f 512 256]).
  { rewrite Hrun. unfold trace. cbn [fst].
    rewrite (packets_after_hs name (fsize f) port baud [CMD_ACK] _ _ _ Hw).
    rewrite writes_app, data_packets_events.
    change (data_packets (writes end_events)) with (@nil (list byte)).
    apply app_nil_r. }
  rewrite Hcs. split; [|split; [|split; [|split]]].
  - rewrite Hrun. reflexivity.
  - reflexivity.
  - vm_compute. reflexivity.
  - exists ([Print (MFontFile name); Print (MFileSize (fsize f))]
              ++ mode_events port baud [CMD_ACK]
              ++ Print MSendingStart :: (hs_prefix (fsize f) ++ tail)).
    rewrite Hrun. unfold trace. cbn [fst].
    repeat (rewrite <- app_assoc || rewrite <- app_comm_cons). reflexivity.
  - rewrite Hrun. reflexivity.
Qed.

Lemma send_600_scenario_witness :
  let r := send_font_file (test_env (zero_file 600) acking) "COM4"%string 115200%Z
             "font.bin"%string 5 in
  result r = Ret true /\
  data_packets (writes (trace r))
    = [read_at (zero_file 600) 0 256; read_at (zero_file 600) 256 256;
       read_at (zero_file 600) 512 256] /\
  map (@length byte) (data_packets (writes (trace r))) = [256; 256; 88]%nat /\
  (exists pre, trace r = pre ++ data_events 600 0 (data_packets (writes (trace r)))
                           ++ end_events) /\
  snd (fst r) = 5%nat.
Proof.
  apply (send_600_scenario (test_env (zero_file 600) acking) "COM4"%string 115200%Z
           "font.bin"%string (fun _ => x00) 4).
  - reflexivity.
  - reflexivity.
  - intro k. reflexivity.
Defined.

(** C5: the answer to the 'C' trigger never makes the call fail: whatever
    the mode-select read returns (nothing, fewer than four bytes, or four
    bytes without "OK"), the call goes on to the START handshake and writes
    the START byte; the only effect of the answer is the message printed,
    which is a warning unless four bytes containing "OK" came back. *)
Theorem send_mode_select_advisory (E : env) port baud name f fuel r0 :
  fs E name = Some f ->
  serial_open E port baud = None ->
  remote E 0%nat = RBytes r0 ->
  (exists rest,
     trace (send_font_file E port baud name (S fuel))
     = [Print (MFontFile name); Print (MFileSize (fsize f))]
       ++ mode_events port baud (firstn 4 r0)
       ++ [Print MSendingStart; ResetIn; Sleep 100; Write [CMD_START]] ++ rest) /\
  (mode_msg (firstn 4 r0) = MReceivedOK \/ mode_msg (firstn 4 r0) = MWarnNoOK \/
   exists s, mode_msg (firstn 4 r0) = MWarnUnexpected s) /\
  (mode_msg (firstn 4 r0) = MReceivedOK ->
   (4 <= length (firstn 4 r0))%nat /\
   contains_OK (decode_ascii_ignore (firstn 4 r0)) = true).
Proof.
  intros Hf Ho Hr0. split; [|split].
  - rewrite (send_font_file_exists E port baud name f (S fuel) Hf), session_eq, Ho, Hr0.
    rewrite transfer_eq.
    destruct (hs_loop_start E fuel (fsize f) 1%nat) as (ev & j & r & ->).
    destruct r as [[|]|e|].
    + destruct (data_loop _ _ _ _ _ _ j) as [[d j'] [[|]|e|]];
        [| |destruct (is_Exception e)|]; eexists; reflexivity.
    + eexists; reflexivity.
    + destruct (is_Exception e); eexists; reflexivity.
    + eexists; reflexivity.
  - unfold mode_msg. destruct (Nat.ltb _ 4); [right; left; reflexivity|].
    destruct (contains_OK _); [left; reflexivity|right; right; eexists; reflexivity].
  - unfold mode_msg. intro H.
    destruct (Nat.ltb (length (firstn 4 r0)) 4) eqn:Hl; [discriminate H|].
    apply Nat.ltb_ge in Hl. split; [exact Hl|].
    destruct (contains_OK _); [reflexivity|discriminate H].
Qed.

Lemma send_mode_select_advisory_witness :
  (exists rest,
     trace (send_font_file (test_env (zero_file 600) acking) "COM4"%string 115200%Z
              "font.bin"%string 5)
     = [Print (MFontFile "font.bin"%string); Print (MFileSize (fsize (zero_file 600)))]
       ++ mode_events "COM4"%string 115200%Z (firstn 4 [CMD_ACK])
       ++ [Print MSendingStart; ResetIn; Sleep 100; Write [CMD_START]] ++ rest) /\
  (mode_msg (firstn 4 [CMD_ACK]) = MReceivedOK \/ mode_msg (firstn 4 [CMD_ACK]) = MWarnNoOK \/
   exists s, mode_msg (firstn 4 [CMD_ACK]) = MWarnUnexpected s) /\
  (mode_msg (firstn 4 [CMD_ACK]) = MReceivedOK ->
   (4 <= length (firstn 4 [CMD_ACK]))%nat /\
   contains_OK (decode_ascii_ignore (firstn 4 [CMD_ACK])) = true).
Proof.
  apply (send_mode_select_advisory (test_env (zero_file 600) acking) "COM4"%string 115200%Z
           "font.bin"%string (zero_file 600) 4 [CMD_ACK]);
    reflexivity.
Defined.




(** C9: the handshake retry counter goes up only on an empty answer.  One
    START attempt whose 10-byte read returns nothing adds one to the counter
    and one whose read returns bytes leaves it unchanged, with the ACK flag
    set exactly when one of those bytes is ACK; against a device whose
    every answer is empty or holds an ACK the loop ends within 50 attempts;
    against a device whose every answer is non-empty without ACK it never
    ends, whatever the iteration budget. *)
Theorem hs_retry_on_empty_only :
  (forall E L rc i l, L < 2 ^ 32 -> remote E i = RBytes l ->
     exists ev rc' ar',
       hs_body E L rc i = (ev, S i, Ret (rc', ar')) /\
       (firstn 10 l = [] -> rc' = rc + 1 /\ ar' = false) /\
       (firstn 10 l <> [] -> rc' = rc /\ ar' = has_ack (firstn 10 l))) /\
  (forall E L fuel i, (50 <= fuel)%nat ->
     (forall k, (i <= k)%nat -> exists l, remote E k = RBytes l /\
        (firstn 10 l = [] \/ has_ack (firstn 10 l) = true)) ->
     snd (hs_loop E fuel L 0 false i) <> Diverge) /\
  (forall E L fuel i, L < 2 ^ 32 ->
     (forall k, (i <= k)%nat -> exists l, remote E k = RBytes l /\
        firstn 10 l <> [] /\ has_ack (firstn 10 l) = false) ->
     snd (hs_loop E fuel L 0 false i) = Diverge).
Proof.
  split; [|split].
  - intros E L rc i l HL Hr.
    destruct (hs_body_bytes E L rc i l HL Hr) as (tail & rc' & ar' & Hb & _ & H1 & H2).
    exists (hs_prefix L ++ tail), rc', ar'. auto.
  - intros E L fuel i Hfuel Hrem.
    destruct (hs_loop_terminates E fuel L 0 i ltac:(unfold max_retries; lia)
                ltac:(unfold max_retries; lia) Hrem) as (evs & j & r & Hrun & Hr).
    rewrite Hrun. exact Hr.
  - intros E L fuel i HL Hrem.
    apply hs_loop_diverges; [exact HL|reflexivity|exact Hrem].
Qed.

Lemma hs_retry_on_empty_only_witness :
  snd (hs_loop (test_env (zero_file 600) silent) 50 600 0 false 1%nat) <> Diverge /\
  snd (hs_loop (test_env (zero_file 600) chatty) 80 600 0 false 1%nat) = Diverge.
Proof.
  destruct hs_retry_on_empty_only as [_ [H2 H3]]. split.
  - apply H2; [lia|]. intros k _. exists []. split; [reflexivity|left; reflexivity].
  - apply H3; [reflexivity|]. intros k _. exists [x00].
    split; [reflexivity|split; [discriminate|reflexivity]].
Defined.

(** C3 (counterexample): for a file of 2^32 bytes the session reaches the
    handshake and writes a START byte, but [file_size.to_bytes(4, 'little')]
    raises OverflowError before any length field is written; the error is
    caught and the call returns False. *)
Lemma send_start_length_cex :
  writes (trace (send_font_file (test_env (zero_file (2 ^ 32)) acking) "COM4"%string
                   115200%Z "font.bin"%string 3)) = [[CMD_CHINESE]; [CMD_START]] /\
  result (send_font_file (test_env (zero_file (2 ^ 32)) acking) "COM4"%string
            115200%Z "font.bin"%string 3) = Ret false.
Proof. split; vm_compute; reflexivity. Qed.

(** C3 (amended): when the file size fits in four bytes, the writes of a
    call are the 'C' byte, then whole START attempts, each the START byte
    followed by a 4-byte little-endian length field that decodes to the
    file size, then nothing, END alone, or the DATA phase (or nothing at
    all if the port does not open).  When the size does not fit, at most the
    'C' byte and one START byte are written, no length field follows, and
    the call never returns True. *)
Theorem send_start_length (E : env) port baud name f fuel :
  fs E name = Some f ->
  (fsize f < 2 ^ 32 ->
     length (le_bytes 4 (fsize f)) = 4%nat /\
     decode_le (le_bytes 4 (fsize f)) = fsize f /\
     (writes (trace (send_font_file E port baud name fuel)) = [] \/
      exists n rest,
        writes (trace (send_font_file E port baud name fuel))
          = [CMD_CHINESE] :: concat (repeat (attempt_writes (fsize f)) n) ++ rest /\
        (rest = [] \/ rest = [[CMD_END]] \/ exists tl, rest = [CMD_DATA] :: tl))) /\
  (2 ^ 32 <= fsize f ->
     result (send_font_file E port baud name fuel) <> Ret true /\
     (writes (trace (send_font_file E port baud name fuel)) = [] \/
      writes (trace (send_font_file E port baud name fuel)) = [[CMD_CHINESE]] \/
      writes (trace (send_font_file E port baud name fuel)) = [[CMD_CHINESE]; [CMD_START]]) /\
     (forall r0,
        serial_open E port baud = None ->
        remote E 0%nat = RBytes r0 ->
        (0 < fuel)%nat ->
        send_font_file E port baud name fuel =
        ([Print (MFontFile name); Print (MFileSize (fsize f))]
           ++ mode_events port baud (firstn 4 r0)
           ++ [Print MSendingStart; ResetIn; Sleep 100; Write [CMD_START]; Flush; Sleep 50]
           ++ handler_events OverflowError,
         1%nat, Ret false))).
Proof.
  intro Hf. split; intro HL.
  - split; [apply le_bytes_length|]. split; [apply decode_le_bytes; exact HL|].
    exact (send_writes_shape E port baud name f fuel Hf HL).
  - split; [|split].
    + intro H. apply (send_true_small E port baud name f fuel Hf) in H. lia.
    + exact (send_writes_big E port baud name f fuel Hf HL).
    + intros r0 Ho Hr0 Hfuel. destruct fuel as [|fuel]; [lia|].
      rewrite (send_font_file_exists E port baud name f (S fuel) Hf), session_eq, Ho, Hr0.
      rewrite transfer_eq.
      assert (Hh : hs_loop E (S fuel) (fsize f) 0 false 1%nat =
                   ([ResetIn; Sleep 100; Write [CMD_START]; Flush; Sleep 50], 1%nat,
                    Raise OverflowError)).
      { rewrite hs_loop_step by reflexivity. rewrite bind_eq, hs_body_overflow by exact HL.
        reflexivity. }
      rewrite Hh. reflexivity.
Qed.

Lemma send_start_length_witness :
  (fsize (zero_file 600) < 2 ^ 32 ->
     length (le_bytes 4 (fsize (zero_file 600))) = 4%nat /\
     decode_le (le_bytes 4 (fsize (zero_file 600))) = fsize (zero_file 600) /\
     (writes (trace (send_font_file (test_env (zero_file 600) acking) "COM4"%string
                       115200%Z "font.bin"%string 5)) = [] \/
      exists n rest,
        writes (trace (send_font_file (test_env (zero_file 600) acking) "COM4"%string
                         115200%Z "font.bin"%string 5))
          = [CMD_CHINESE] :: concat (repeat (attempt_writes (fsize (zero_file 600))) n)
              ++ rest /\
        (rest = [] \/ rest = [[CMD_END]] \/ exists tl, rest = [CMD_DATA] :: tl))) /\
  (2 ^ 32 <= fsize (zero_file 600) ->
     result (send_font_file (test_env (zero_file 600) acking) "COM4"%string 115200%Z
               "font.bin"%string 5) <> Ret true /\
     (writes (trace (send_font_file (test_env (zero_file 600) acking) "COM4"%string
                       115200%Z "font.bin"%string 5)) = [] \/
      writes (trace (send_font_file (test_env (zero_file 600) acking) "COM4"%string
                       115200%Z "font.bin"%string 5)) = [[CMD_CHINESE]] \/
      writes (trace (send_font_file (test_env (zero_file 600) acking) "COM4"%string
                       115200%Z "font.bin"%string 5)) = [[CMD_CHINESE]; [CMD_START]]) /\
     (forall r0,
        serial_open (test_env (zero_file 600) acking) "COM4"%string 115200%Z = None ->
        remote (test_env (zero_file 600) acking) 0%nat = RBytes r0 ->
        (0 < 5)%nat ->
        send_font_file (test_env (zero_file 600) acking) "COM4"%string 115200%Z
          "font.bin"%string 5 =
        ([Print (MFontFile "font.bin"%string); Print (MFileSize (fsize (zero_file 600)))]
           ++ mode_events "COM4"%string 115200%Z (firstn 4 r0)
           ++ [Print MSendingStart; ResetIn; Sleep 100; Write [CMD_START]; Flush; Sleep 50]
           ++ handler_events OverflowError,
         1%nat, Ret false))) /\
  (2 ^ 32 <= fsize (zero_file (2 ^ 32)) ->
     result (send_font_file (test_env (zero_file (2 ^ 32)) acking) "COM4"%string 115200%Z
               "font.bin"%string 5) <> Ret true /\
     (writes (trace (send_font_file (test_env (zero_file (2 ^ 32)) acking) "COM4"%string
                       115200%Z "font.bin"%string 5)) = [] \/
      writes (trace (send_font_file (test_env (zero_file (2 ^ 32)) acking) "COM4"%string
                       115200%Z "font.bin"%string 5)) = [[CMD_CHINESE]] \/
      writes (trace (send_font_file (test_env (zero_file (2 ^ 32)) acking) "COM4"%string
                       115200%Z "font.bin"%string 5)) = [[CMD_CHINESE]; [CMD_START]]) /\
     (forall r0,
        serial_open (test_env (zero_file (2 ^ 32)) acking) "COM4"%string 115200%Z = None ->
        remote (test_env (zero_file (2 ^ 32)) acking) 0%nat = RBytes r0 ->
        (0 < 5)%nat ->
        send_font_file (test_env (zero_file (2 ^ 32)) acking) "COM4"%string 115200%Z
          "font.bin"%string 5 =
        ([Print (MFontFile "font.bin"%string);
          Print (MFileSize (fsize (zero_file (2 ^ 32))))]
           ++ mode_events "COM4"%string 115200%Z (firstn 4 r0)
           ++ [Print MSendingStart; ResetIn; Sleep 100; Write [CMD_START]; Flush; Sleep 50]
           ++ handler_events OverflowError,
         1%nat, Ret false))).
Proof.
  split.
  - exact (proj1 (send_start_length (test_env (zero_file 600) acking) "COM4"%string 115200%Z
                    "font.bin"%string (zero_file 600) 5 eq_refl)).
  - split.
    + exact (proj2 (send_start_length (test_env (zero_file 600) acking) "COM4"%string
                      115200%Z "font.bin"%string (zero_file 600) 5 eq_refl)).
    + exact (proj2 (send_start_length (test_env (zero_file (2 ^ 32)) acking) "COM4"%string
                      115200%Z "font.bin"%string (zero_file (2 ^ 32)) 5 eq_refl)).
Defined.

(** C10 (counterexample): a KeyboardInterrupt raised by a serial read is not
    an instance of Exception, so neither except clause catches it and it
    propagates out of the call. *)
Lemma send_interrupt_cex :
  result (send_font_file (test_env (zero_file 600) interrupted) "COM4"%string
            115200%Z "font.bin"%string 3) = Raise KeyboardInterrupt.
Proof. vm_compute. reflexivity. Qed.

(** C10 (amended): the only exceptions that leave the call are those that
    are not instances of Exception (KeyboardInterrupt); any instance of
    Exception raised in the try block, serial errors included, is caught:
    the error is printed and the call returns False. *)
Theorem send_catches_exceptions (E : env) port baud name fuel :
  (forall e, result (send_font_file E port baud name fuel) = Raise e ->
     is_Exception e = false) /\
  (forall f ev j e,
     fs E name = Some f ->
     session E port baud f fuel 0%nat = (ev, j, Raise e) ->
     is_Exception e = true ->
     send_font_file E port baud name fuel
     = ([Print (MFontFile name); Print (MFileSize (fsize f))] ++ ev ++ handler_events e,
        j, Ret false)) /\
  (forall f ev j e,
     fs E name = Some f ->
     session E port baud f fuel 0%nat = (ev, j, Raise e) ->
     is_Exception e = false ->
     send_font_file E port baud name fuel
     = ([Print (MFontFile name); Print (MFileSize (fsize f))] ++ ev, j, Raise e)).
Proof.
  split; [|split].
  - intros e H. destruct (fs E name) as [f|] eqn:Hf.
    + rewrite (send_font_file_exists E port baud name f fuel Hf) in H.
      destruct (session E port baud f fuel 0%nat) as [[ev j] [b|x|]];
        [discriminate H| |discriminate H].
      destruct (is_Exception x) eqn:Hx; [discriminate H|].
      cbn in H. injection H as <-. exact Hx.
    + unfold send_font_file, send_font_file_m in H. rewrite Hf in H. discriminate H.
  - intros f ev j e Hf Hs He.
    rewrite (send_font_file_exists E port baud name f fuel Hf), Hs, He. reflexivity.
  - intros f ev j e Hf Hs He.
    rewrite (send_font_file_exists E port baud name f fuel Hf), Hs, He. reflexivity.
Qed.

Lemma send_catches_exceptions_witness :
  is_Exception KeyboardInterrupt = false /\
  send_font_file (mkEnv (fun _ => Some (zero_file 600)) (fun _ _ => Some SerialException)
                    acking) "COM4"%string 115200%Z "font.bin"%string 5
  = ([Print (MFontFile "font.bin"%string); Print (MFileSize (fsize (zero_file 600)))]
       ++ [] ++ handler_events SerialException, 0%nat, Ret false) /\
  send_font_file (test_env (zero_file 600) interrupted) "COM4"%string 115200%Z
    "font.bin"%string 5
  = ([Print (MFontFile "font.bin"%string); Print (MFileSize (fsize (zero_file 600)))]
       ++ open_events "COM4"%string 115200%Z, 1%nat, Raise KeyboardInterrupt).
Proof.
  split; [|split].
  - apply (proj1 (send_catches_exceptions (test_env (zero_file 600) interrupted)
                    "COM4"%string 115200%Z "font.bin"%string 3)).
    vm_compute. reflexivity.
  - apply (proj1 (proj2 (send_catches_exceptions
                    (mkEnv (fun _ => Some (zero_file 600)) (fun _ _ => Some SerialException)
                       acking) "COM4"%string 115200%Z "font.bin"%string 5))).
    + reflexivity.
    + reflexivity.
    + reflexivity.
  - apply (proj2 (proj2 (send_catches_exceptions (test_env (zero_file 600) interrupted)
                    "COM4"%string 115200%Z "font.bin"%string 5))).
    + reflexivity.
    + reflexivity.
    + reflexivity.
Defined.

(** C8: the uploader keeps no hidden state between calls: two calls on
    files with the same size and the same bytes, whose ports open alike and
    whose devices answer the same sequence, write the same sequence of
    byte strings (so the same bytes on the wire) and end the same way;
    port name, baud rate and file name may differ. *)
Theorem send_deterministic (E1 E2 : env) port1 baud1 name1 port2 baud2 name2
    f1 f2 fuel :
  fs E1 name1 = Some f1 ->
  fs E2 name2 = Some f2 ->
  fsize f1 = fsize f2 ->
  (forall k, k < fsize f1 -> fbyte f1 k = fbyte f2 k) ->
  serial_open E1 port1 baud1 = serial_open E2 port2 baud2 ->
  (forall k, remote E1 k = remote E2 k) ->
  wire (trace (send_font_file E1 port1 baud1 name1 fuel))
    = wire (trace (send_font_file E2 port2 baud2 name2 fuel)) /\
  writes (trace (send_font_file E1 port1 baud1 name1 fuel))
    = writes (trace (send_font_file E2 port2 baud2 name2 fuel)) /\
  result (send_font_file E1 port1 baud1 name1 fuel)
    = result (send_font_file E2 port2 baud2 name2 fuel).
Proof.
  intros Hf1 Hf2 Hs Hb Ho Hr.
  assert (Hrem : remote E1 = remote E2) by (extensionality k; apply Hr).
  pose proof (send_observable E1 port1 baud1 name1 f1 fuel Hf1) as H1.
  pose proof (send_observable E2 port2 baud2 name2 f2 fuel Hf2) as H2.
  rewrite Ho, Hr, (transfer_remote E1 E2 f1 fuel 1 Hrem),
    (transfer_agree E2 f1 f2 fuel 1 Hs Hb), <- H2 in H1.
  injection H1 as Hw Hres.
  rewrite !wire_writes, Hw. auto.
Qed.

Lemma send_deterministic_witness :
  let E2 := mkEnv (fun _ => Some (mkFile 600 (fun k => if k <? 600 then x00 else xff)))
              (fun _ _ => None) (nack_at 3) in
  wire (trace (send_font_file (test_env (zero_file 600) (nack_at 3)) "COM4"%string
                 115200%Z "font.bin"%string 5))
    = wire (trace (send_font_file E2 "COM7"%string 9600%Z "copy.bin"%string 5)) /\
  writes (trace (send_font_file (test_env (zero_file 600) (nack_at 3)) "COM4"%string
                   115200%Z "font.bin"%string 5))
    = writes (trace (send_font_file E2 "COM7"%string 9600%Z "copy.bin"%string 5)) /\
  result (send_font_file (test_env (zero_file 600) (nack_at 3)) "COM4"%string 115200%Z
            "font.bin"%string 5)
    = result (send_font_file E2 "COM7"%string 9600%Z "copy.bin"%string 5).
Proof.
  intro E2.
  apply (send_deterministic (test_env (zero_file 600) (nack_at 3)) E2
           "COM4"%string 115200%Z "font.bin"%string "COM7"%string 9600%Z "copy.bin"%string
           (zero_file 600) (mkFile 600 (fun k => if k <? 600 then x00 else xff)) 5).
  - reflexivity.
  - reflexivity.
  - reflexivity.
  - intros k Hk. change (fsize (zero_file 600)) with 600 in Hk.
    cbn [fbyte zero_file]. apply N.ltb_lt in Hk. rewrite Hk. reflexivity.
  - reflexivity.
  - intro k. reflexivity.
Defined.

(** ** Further properties of the uploader and of [main] *)

Ltac unfold_monad :=
  unfold print, ser_write, ser_read, sleep in *; unfold bind, emit, ret in *.

Lemma count_ev_app p l1 l2 : count_ev p (l1 ++ l2) = (count_ev p l1 + count_ev p l2)%nat.
Proof. unfold count_ev. rewrite filter_app, length_app. reflexivity. Qed.

Lemma hs_body_events E L rc i ev j r :
  hs_body E L rc i = (ev, j, r) -> forallb hs_event ev = true.
Proof.
  unfold hs_body, to_bytes. unfold_monad. unfold raise.
  destruct (L <? _); cbn -[firstn has_ack]; [|intro Heq; inversion Heq; reflexivity].
  destruct (remote E i); cbn -[firstn has_ack]; [|intro Heq; inversion Heq; reflexivity].
  generalize (firstn 10 l) as ack. intros [|b ack]; cbn -[has_ack].
  - destruct ((rc + 1) mod 5 =? 0); cbn; intro Heq; inversion Heq; reflexivity.
  - destruct (has_ack (b :: ack)); [|destruct (rc mod 5 =? 0)]; cbn;
      intro Heq; inversion Heq; reflexivity.
Qed.

Lemma hs_loop_events E fuel L rc ar i ev j r :
  hs_loop E fuel L rc ar i = (ev, j, r) -> forallb hs_event ev = true.
Proof.
  revert rc ar i ev j r; induction fuel as [|fuel IH]; intros rc ar i ev j r;
    cbn [hs_loop].
  - destruct (_ && _); unfold diverge, ret; intro Heq; inversion Heq; reflexivity.
  - destruct (_ && _); [|unfold ret; intro Heq; inversion Heq; reflexivity].
    unfold bind. destruct (hs_body E L rc i) as [[e1 j1] [p|x|]] eqn:Hb; intro Heq.
    + destruct (hs_loop E fuel L (fst p) (snd p) j1) as [[e2 j2] r2] eqn:Hl.
      inversion Heq; subst. rewrite forallb_app, (hs_body_events _ _ _ _ _ _ _ Hb).
      exact (IH _ _ _ _ _ _ Hl).
    + inversion Heq; subst. eapply hs_body_events; eauto.
    + inversion Heq; subst. eapply hs_body_events; eauto.
Qed.

Lemma hs_quiet ev :
  forallb hs_event ev = true ->
  count_ev is_open ev = 0%nat /\ count_ev is_close ev = 0%nat /\ progress ev = [].
Proof.
  unfold count_ev. induction ev as [|a ev IH]; intro H; [auto|].
  cbn in H. apply andb_prop in H. destruct H as [Ha Hr]. specialize (IH Hr).
  destruct a; try discriminate Ha; try (destruct m; try discriminate Ha); cbn; exact IH.
Qed.

Lemma data_loop_counts E fuel f L t pos i d j r :
  data_loop E fuel f L t pos i = (d, j, r) ->
  count_ev is_open d = 0%nat /\
  count_ev is_close d = match r with Ret false => 1%nat | _ => 0%nat end.
Proof.
  unfold count_ev.
  revert t pos i d j r; induction fuel as [|fuel IH]; intros t pos i d j r H;
    cbn [data_loop] in H.
  - destruct (t <? L); unfold diverge, ret in H; inversion H; subst; auto.
  - destruct (t <? L); [|unfold ret in H; inversion H; subst; auto].
    destruct (Nat.eqb (length (read_at f pos CHUNK_SIZE)) 0);
      [unfold ret in H; inversion H; subst; auto|].
    unfold to_bytes in H. unfold_monad. unfold raise in H.
    destruct (_ <? 2 ^ _); cbn -[read_at firstn data_loop] in H;
      [|inversion H; subst; auto].
    destruct (remote E i) as [l|e]; cbn -[read_at firstn data_loop] in H;
      [|inversion H; subst; auto].
    destruct (firstn 1 l) as [|a rest]; cbn -[read_at data_loop] in H;
      [inversion H; subst; auto|].
    destruct (Byte.eqb a CMD_ACK); cbn -[read_at data_loop] in H;
      [|inversion H; subst; auto].
    match type of H with
    | context [data_loop E fuel f L ?a ?b ?c] =>
        destruct (data_loop E fuel f L a b c) as [[d2 j2] r2] eqn:Hl
    end.
    inversion H; subst. cbn. exact (IH _ _ _ _ _ _ Hl).
Qed.

Ltac count_simpl :=
  unfold count_ev, handler_events, end_events, open_events, mode_events in *;
  repeat first [rewrite filter_app in * | rewrite length_app in *];
  cbn [filter is_open is_close length] in *.

(** X1: once [send_font_file] has opened the serial port, it closes it exactly once when the [try] block returns (True or False), and never when an exception leaves the [try] block: the [except] clauses do not close the port.  The port is opened at most once. *)
Theorem send_port_closed E port baud name f fuel :
  fs E name = Some f ->
  count_ev is_open (trace (send_font_file E port baud name fuel)) =
    match serial_open E port baud with None => 1%nat | Some _ => 0%nat end /\
  count_ev is_close (trace (send_font_file E port baud name fuel)) =
    match result (session E port baud f fuel 0%nat) with
    | Ret _ => 1%nat
    | _ => 0%nat
    end.
Proof.
  intro Hf. rewrite (send_font_file_exists E port baud name f fuel Hf).
  rewrite session_eq. destruct (serial_open E port baud) as [e|] eqn:Hs.
  { cbn. destruct (is_Exception e); cbn; [|auto].
    count_simpl. destruct (is_SerialException e); cbn; auto. }
  destruct (remote E 0%nat) as [r0|e] eqn:Hr0.
  2: { cbn. destruct (is_Exception e); cbn; count_simpl; [|auto].
       destruct (is_SerialException e); cbn; auto. }
  rewrite transfer_eq.
  destruct (hs_loop E fuel (fsize f) 0 false 1%nat) as [[h jh] rh] eqn:Hh.
  pose proof (hs_quiet _ (hs_loop_events _ _ _ _ _ _ _ _ _ Hh)) as [Ho [Hc _]].
  destruct rh as [[|]|x|].
  - destruct (data_loop E (S (N.to_nat (fsize f / CHUNK_SIZE))) f (fsize f) 0 0 jh)
      as [[d jd] rd] eqn:Hd.
    pose proof (data_loop_counts _ _ _ _ _ _ _ _ _ _ Hd) as [Do Dc].
    destruct rd as [[|]|x|]; cbn; count_simpl;
      try (destruct (is_Exception x); cbn; count_simpl;
           try destruct (is_SerialException x); cbn);
      lia.
  - cbn. count_simpl. lia.
  - cbn. destruct (is_Exception x); cbn; count_simpl;
      try destruct (is_SerialException x); cbn; lia.
  - cbn. count_simpl. lia.
Qed.

Lemma writes_chunk_events c : writes (chunk_events c) = data_frame c.
Proof. reflexivity. Qed.

Lemma writes_print_cons m l : writes (Print m :: l) = writes l.
Proof. reflexivity. Qed.

Lemma writes_data_events L t cs :
  writes (data_events L t cs) = concat (map data_frame cs).
Proof.
  revert t; induction cs as [|c cs IH]; intro t; [reflexivity|].
  cbn [data_events]. rewrite writes_app, writes_chunk_events, writes_print_cons, IH.
  reflexivity.
Qed.

Lemma data_loop_frames E fuel f t i d j r :
  data_loop E fuel f (fsize f) t t i = (d, j, r) ->
  exists n, writes d = concat (map data_frame (firstn n (chunks_from fuel f t))).
Proof.
  revert t i d j r; induction fuel as [|fuel IH]; intros t i d j r H.
  - exists 0%nat. cbn [data_loop] in H.
    destruct (t <? fsize f); unfold diverge, ret in H; inversion H; reflexivity.
  - destruct (N.lt_ge_cases t (fsize f)) as [Hlt|Hge].
    2: { rewrite data_loop_end in H by exact Hge. inversion H; subst.
         exists 0%nat. reflexivity. }
    rewrite chunks_from_cons by exact Hlt.
    destruct (remote E i) as [l|e] eqn:Hr.
    + destruct l as [|b l].
      { rewrite (data_loop_step_nack E fuel f t i []) in H;
          [|exact Hlt|exact Hr|intros l' Hc; discriminate Hc].
        inversion H; subst. exists 1%nat.
        reflexivity. }
      destruct (Byte.eqb b CMD_ACK) eqn:Hb.
      * apply byte_dec_bl in Hb. subst b.
        rewrite (data_loop_step_ack E fuel f t i l Hlt Hr) in H. cbv zeta in H.
        destruct (data_loop E fuel f (fsize f) _ _ (S i)) as [[d2 j2] r2] eqn:Hl.
        inversion H; subst. destruct (IH _ _ _ _ _ Hl) as [n Hn].
        exists (S n).
        transitivity (data_frame (read_at f t CHUNK_SIZE) ++ writes d2);
          [reflexivity|].
        rewrite Hn. reflexivity.
      * rewrite (data_loop_step_nack E fuel f t i (b :: l)) in H;
          [|exact Hlt|exact Hr|intros l' Hc; inversion Hc; subst; discriminate Hb].
        inversion H; subst. exists 1%nat.
        reflexivity.
    + rewrite (data_loop_step_raise E fuel f t i e Hlt Hr) in H.
      inversion H; subst. exists 1%nat. reflexivity.
Qed.

Lemma send_result_session E port baud name f fuel :
  fs E name = Some f ->
  result (send_font_file E port baud name fuel) =
  match snd (session E port baud f fuel 0%nat) with
  | Raise x => catch x
  | r => r
  end.
Proof.
  intro Hf. rewrite (send_font_file_exists E port baud name f fuel Hf).
  unfold catch.
  destruct (session E port baud f fuel 0%nat) as [[e j] [b|x|]]; cbn [snd];
    [|destruct (is_Exception x)|]; reflexivity.
Qed.

Lemma chunks_from_frames n f pos :
  Forall (fun c => (1 <= length c <= 256)%nat /\
                   decode_le (le_bytes 2 (N.of_nat (length c))) = N.of_nat (length c))
         (chunks_from n f pos).
Proof.
  revert pos; induction n as [|n IH]; intro pos; cbn [chunks_from]; [constructor|].
  destruct (pos <? fsize f) eqn:Hp; constructor; auto.
  apply N.ltb_lt in Hp. pose proof (read_at_chunk_pos f pos Hp).
  pose proof (read_at_chunk_le f pos).
  split; [lia|]. apply decode_le_bytes. cbn. lia.
Qed.

(** X2: for a file smaller than 4 GiB, whatever the device answers, the writes of a call are either none, or the 'C' byte, whole START attempts, the DATA frames of the first [n] chunks of the file in order (command byte, 2-byte length, payload), and the END byte exactly when the call returns True, in which case all chunks were sent.  Every chunk has 1 to 256 bytes and its length field decodes to its length. *)
Theorem send_wire_frames E port baud name f fuel :
  fs E name = Some f -> fsize f < 2 ^ 32 ->
  let cs := chunks_from (S (N.to_nat (fsize f / CHUNK_SIZE))) f 0 in
  Forall (fun c => (1 <= length c <= 256)%nat /\
                   decode_le (le_bytes 2 (N.of_nat (length c))) = N.of_nat (length c)) cs /\
  (writes (trace (send_font_file E port baud name fuel)) = [] \/
   exists k n,
     writes (trace (send_font_file E port baud name fuel)) =
       [CMD_CHINESE] :: concat (repeat (attempt_writes (fsize f)) k)
         ++ concat (map data_frame (firstn n cs))
         ++ match result (send_font_file E port baud name fuel) with
            | Ret true => [[CMD_END]]
            | _ => []
            end /\
     (result (send_font_file E port baud name fuel) = Ret true -> n = length cs)).
Proof.
  intros Hf HL cs. split; [apply chunks_from_frames|].
  rewrite (send_writes_session E port baud name f fuel Hf),
          (send_result_session E port baud name f fuel Hf), session_eq.
  destruct (serial_open E port baud) as [e|]; [left; reflexivity|].
  destruct (remote E 0%nat) as [r0|e].
  2:{ right. exists 0%nat, 0%nat. cbn [snd]. unfold catch.
      destruct (is_Exception e); (split; [reflexivity|discriminate]). }
  rewrite transfer_eq.
  destruct (hs_loop E fuel (fsize f) 0 false 1%nat) as [[h jh] rh] eqn:Hh.
  destruct (hs_loop_writes _ _ _ _ _ _ _ _ _ HL Hh) as [_ Hw].
  right. exists (jh - 1)%nat.
  destruct rh as [[|]|e|].
  - destruct (data_loop E (S (N.to_nat (fsize f / CHUNK_SIZE))) f (fsize f) 0 0 jh)
      as [[d j'] rd] eqn:Hd.
    destruct rd as [[|]|e|].
    + destruct (data_loop_true E _ f 0 jh d j' (N.le_0_l _) (data_budget _) Hd)
        as [Hdd _].
      exists (length cs). cbn [fst snd].
      rewrite writes_mode, writes_app, Hw, Hdd, writes_data_events, firstn_all.
      split; reflexivity.
    + destruct (data_loop_frames _ _ _ _ _ _ _ _ Hd) as [n Hn].
      exists n. cbn [fst snd].
      rewrite writes_mode, Hw, Hn. cbn [writes flat_map]. rewrite !app_nil_r.
      split; [reflexivity|discriminate].
    + destruct (data_loop_frames _ _ _ _ _ _ _ _ Hd) as [n Hn].
      exists n. cbn [fst snd]. unfold catch.
      rewrite writes_mode, Hw, Hn. cbn [writes flat_map].
      destruct (is_Exception e); cbv iota; rewrite ?app_nil_r;
        (split; [reflexivity|discriminate]).
    + destruct (data_loop_frames _ _ _ _ _ _ _ _ Hd) as [n Hn].
      exists n. cbn [fst snd].
      rewrite writes_mode, Hw, Hn. cbn [writes flat_map].
      rewrite ?app_nil_r.
      split; [reflexivity|discriminate].
  - exists 0%nat. cbn [fst snd]. rewrite writes_mode, Hw. cbn.
    rewrite ?app_nil_r. split; [reflexivity|discriminate].
  - exists 0%nat. cbn [fst snd]. unfold catch. rewrite writes_mode0, Hw.
    cbn [firstn map concat].
    destruct (is_Exception e); cbv iota; rewrite ?app_nil_r;
      (split; [reflexivity|discriminate]).
  - exists 0%nat. cbn [fst snd]. rewrite writes_mode0, Hw.
    cbn [firstn map concat]. rewrite ?app_nil_r.
    split; [reflexivity|discriminate].
Qed.

Lemma progress_app l1 l2 : progress (l1 ++ l2) = progress l1 ++ progress l2.
Proof.
  induction l1 as [|a l1 IH]; [reflexivity|].
  destruct a; try destruct m; cbn; rewrite ?IH; reflexivity.
Qed.

Lemma progress_mode port baud r X :
  progress (mode_events port baud r ++ X) = progress X.
Proof.
  unfold mode_events, mode_msg.
  destruct (Nat.ltb _ 4); [|destruct (contains_OK _)]; reflexivity.
Qed.

Lemma progress_chunks f fuel k :
  let L := fsize f in
  let t := N.min (256 * N.of_nat k) L in
  (N.to_nat ((L - t + 255) / 256) <= fuel)%nat ->
  progress (data_events L t (chunks_from fuel f t)) =
  map (fun m => N.min (256 * N.of_nat m) L) (seq (S k) (N.to_nat ((L - t + 255) / 256))).
Proof.
  cbv zeta. revert k; induction fuel as [|fuel IH]; intros k Hb.
  - assert (H0 : N.to_nat ((fsize f - N.min (256 * N.of_nat k) (fsize f) + 255) / 256) = 0%nat)
      by (apply Nat.le_0_r; exact Hb).
    rewrite H0. reflexivity.
  - destruct (N.lt_ge_cases (N.min (256 * N.of_nat k) (fsize f)) (fsize f)) as [Hlt|Hge].
    + rewrite chunks_from_cons by exact Hlt.
      destruct (ceil_step _ _ Hlt) as [Hc H1].
      rewrite length_chunk in *.
      assert (Ht : N.min (256 * N.of_nat k) (fsize f)
                   + N.min 256 (fsize f - N.min (256 * N.of_nat k) (fsize f))
                   = N.min (256 * N.of_nat (S k)) (fsize f)) by lia.
      rewrite Ht in *.
      cbn [data_events]. rewrite progress_app, length_chunk, Ht.
      change (progress (chunk_events (read_at f (N.min (256 * N.of_nat k) (fsize f)) CHUNK_SIZE)))
        with (@nil N).
      cbn [app progress].
      revert Hb H1 Hc.
      generalize ((fsize f - N.min (256 * N.of_nat k) (fsize f) + 255) / 256) as X.
      intros X Hb H1 Hc.
      replace (N.to_nat X) with (S (N.to_nat (X - 1))) by lia.
      cbn [seq map]. f_equal. rewrite <- Hc. apply IH. rewrite Hc. lia.
    + rewrite chunks_from_nil by exact Hge.
      replace (N.to_nat ((fsize f - N.min (256 * N.of_nat k) (fsize f) + 255) / 256))
        with 0%nat by (assert (fsize f - N.min (256 * N.of_nat k) (fsize f) = 0) by lia; narith).
      reflexivity.
Qed.

(** X3: on success, the progress totals printed after the acknowledged chunks are min(256 k, size) for k = 1 .. ceil(size / 256): 256, 512, ..., ending with the file size. *)
Theorem send_progress E port baud name f fuel evs j :
  fs E name = Some f ->
  send_font_file E port baud name fuel = (evs, j, Ret true) ->
  progress evs =
  map (fun k => N.min (256 * N.of_nat k) (fsize f))
      (seq 1 (N.to_nat ((fsize f + 255) / 256))).
Proof.
  intros Hf Hs.
  destruct (send_success E port baud name f fuel evs j Hf Hs)
    as (r0 & h & jh & d & _ & _ & Hh & Hd & ->).
  destruct (data_loop_true E _ f 0 jh d j (N.le_0_l _) (data_budget _) Hd) as [-> _].
  destruct (hs_quiet _ (hs_loop_events _ _ _ _ _ _ _ _ _ Hh)) as (_ & _ & Hp).
  rewrite progress_app. change (progress [Print (MFontFile name); Print (MFileSize (fsize f))])
    with (@nil N).
  rewrite progress_mode. cbn [app progress].
  rewrite !progress_app, Hp.
  change (progress end_events) with (@nil N). rewrite app_nil_r. cbn [app].
  pose proof (progress_chunks f (S (N.to_nat (fsize f / CHUNK_SIZE))) 0) as Hc.
  cbv zeta in Hc.
  replace (N.min (256 * N.of_nat 0) (fsize f)) with 0 in Hc by lia.
  rewrite N.sub_0_r in Hc. apply Hc.
  pose proof (data_budget (fsize f)) as Hb. rewrite N.sub_0_r in Hb. exact Hb.
Qed.

Lemma map_seq_offset {A} (g : nat -> A) a b c :
  map g (seq (a + c) b) = map (fun k => g (a + k)%nat) (seq c b).
Proof.
  revert c; induction b as [|b IH]; intro c; [reflexivity|].
  cbn [seq map]. f_equal. rewrite <- IH. f_equal. f_equal. lia.
Qed.

Lemma read_at_split f t m :
  m <= fsize f - t ->
  read_at f t (fsize f - t) = read_at f t m ++ read_at f (t + m) (fsize f - (t + m)).
Proof.
  intro Hm. unfold read_at.
  rewrite N.min_id.
  replace (N.min m (fsize f - t)) with m by lia.
  replace (N.min (fsize f - (t + m)) (fsize f - (t + m))) with (fsize f - (t + m)) by lia.
  replace (N.to_nat (fsize f - t)) with (N.to_nat m + N.to_nat (fsize f - (t + m)))%nat by lia.
  rewrite seq_app, map_app. f_equal.
  replace (0 + N.to_nat m)%nat with (N.to_nat m + 0)%nat by lia.
  rewrite (map_seq_offset _ (N.to_nat m) _ 0).
  apply map_ext. intro k. f_equal. lia.
Qed.

Lemma chunks_concat f fuel t :
  t <= fsize f ->
  (N.to_nat ((fsize f - t + 255) / 256) <= fuel)%nat ->
  concat (chunks_from fuel f t) = read_at f t (fsize f - t).
Proof.
  revert t; induction fuel as [|fuel IH]; intros t Ht Hb.
  - assert (Hz : (fsize f - t + 255) / 256 = 0)
      by (remember ((fsize f - t + 255) / 256) as X; lia).
    assert (Hle : fsize f - t = 0) by narith.
    cbn. unfold read_at. rewrite Hle. reflexivity.
  - destruct (N.lt_ge_cases t (fsize f)) as [Hlt|Hge].
    + rewrite chunks_from_cons by exact Hlt. cbn [concat].
      destruct (ceil_step _ _ Hlt) as [Hc H1].
      rewrite length_chunk in *.
      rewrite IH; [| lia |].
      2:{ rewrite Hc. remember ((fsize f - t + 255) / 256) as X. lia. }
      rewrite (read_at_split f t (N.min 256 (fsize f - t))) by lia.
      f_equal. unfold read_at. f_equal. f_equal. unfold CHUNK_SIZE. lia.
    + rewrite chunks_from_nil by exact Hge. unfold read_at.
      replace (fsize f - t) with 0 by lia. reflexivity.
Qed.

(** X4: on success, the DATA payloads written, concatenated in order, are exactly the bytes of the file. *)
Theorem send_payload E port baud name f fuel evs j :
  fs E name = Some f ->
  send_font_file E port baud name fuel = (evs, j, Ret true) ->
  concat (data_packets (writes evs)) = contents f.
Proof.
  intros Hf Hs. rewrite (success_packets E port baud name f fuel evs j Hf Hs).
  unfold contents. rewrite <- (N.sub_0_r (fsize f)) at 2.
  apply chunks_concat; [lia|]. apply data_budget.
Qed.

Lemma contains_OK_spec s :
  contains_OK s = true <-> exists a b, s = a ++ x4f :: x4b :: b.
Proof.
  induction s as [|x s IH].
  - split; [discriminate|]. intros (a & b & H). destruct a; discriminate.
  - destruct s as [|y s'].
    + split; [discriminate|]. intros (a & b & H).
      destruct a as [|z a]; [discriminate|]. inversion H as [[Hz Ha]].
      destruct a; discriminate.
    + change (contains_OK (x :: y :: s'))
        with ((Byte.eqb x x4f && Byte.eqb y x4b) || contains_OK (y :: s')).
      rewrite orb_true_iff, andb_true_iff. split.
      * intros [[H1 H2]|H].
        -- apply byte_dec_bl in H1, H2. subst. exists [], s'. reflexivity.
        -- apply IH in H. destruct H as (a & b & H). exists (x :: a), b.
           rewrite H. reflexivity.
      * intros (a & b & H). destruct a as [|z a].
        -- inversion H; subst. left. split; reflexivity.
        -- inversion H; subst. right. apply IH. exists a, b. assumption.
Qed.

Lemma filter_split {A} (p : A -> bool) r a x b :
  filter p r = a ++ x :: b ->
  exists r1 r2, r = r1 ++ x :: r2 /\ filter p r1 = a /\ filter p r2 = b.
Proof.
  revert a; induction r as [|y r IH]; intros a H.
  - destruct a; discriminate.
  - cbn in H. destruct (p y) eqn:Hy.
    + destruct a as [|z a].
      * inversion H; subst. exists [], r. auto.
      * inversion H; subst. destruct (IH a H2) as (r1 & r2 & -> & H1 & H3).
        exists (z :: r1), r2. cbn. rewrite Hy, H1. auto.
    + destruct (IH a H) as (r1 & r2 & -> & H1 & H3).
      exists (y :: r1), r2. cbn. rewrite Hy. auto.
Qed.

Lemma filter_nil_Forall {A} (p : A -> bool) l :
  filter p l = [] <-> Forall (fun x => p x = false) l.
Proof.
  induction l as [|y l IH]; cbn; [split; auto|].
  destruct (p y) eqn:Hy; split; intro H.
  - discriminate.
  - inversion H; congruence.
  - constructor; [exact Hy|]. apply IH, H.
  - inversion H; subst. apply IH. assumption.
Qed.

(** X5: the mode-select reply is reported as "OK" exactly when it has 4 bytes and contains 'O' then 'K' with only non-ASCII bytes between them, since [decode('ascii', errors='ignore')] drops those bytes before the search. *)
Theorem mode_msg_OK response :
  mode_msg response = MReceivedOK <->
  (4 <= length response)%nat /\
  exists pre mid post,
    response = pre ++ x4f :: mid ++ x4b :: post /\
    Forall (fun b => 128 <= Byte.to_N b) mid.
Proof.
  unfold mode_msg. destruct (Nat.ltb (length response) 4) eqn:Hl.
  - split; [discriminate|]. intros [H _]. apply Nat.ltb_lt in Hl. lia.
  - apply Nat.ltb_ge in Hl. unfold decode_ascii_ignore.
    destruct (contains_OK (filter (fun b => Byte.to_N b <? 128) response)) eqn:Hc.
    + split; [intros _; split; [exact Hl|]|reflexivity].
      apply contains_OK_spec in Hc. destruct Hc as (a & b & Hab).
      apply filter_split in Hab. destruct Hab as (r1 & r2 & -> & _ & Hr2).
      apply (filter_split _ r2 []) in Hr2. destruct Hr2 as (m1 & m2 & -> & Hm & _).
      exists r1, m1, m2. split; [reflexivity|].
      apply filter_nil_Forall in Hm. revert Hm. apply Forall_impl.
      intros y Hy. apply N.ltb_ge, Hy.
    + split; [discriminate|]. intros [_ (pre & mid & post & -> & Hm)].
      cut (contains_OK (filter (fun b => Byte.to_N b <? 128)
                                (pre ++ x4f :: mid ++ x4b :: post)) = true);
        [congruence|].
      apply contains_OK_spec.
      assert (Hmid : filter (fun b => Byte.to_N b <? 128) mid = []).
      { apply filter_nil_Forall. revert Hm. apply Forall_impl.
        intros y Hy. apply N.ltb_ge, Hy. }
      exists (filter (fun b => Byte.to_N b <? 128) pre),
             (filter (fun b => Byte.to_N b <? 128) post).
      rewrite filter_app.
      change (filter (fun b => Byte.to_N b <? 128) (x4f :: mid ++ x4b :: post))
        with (x4f :: filter (fun b => Byte.to_N b <? 128) (mid ++ x4b :: post)).
      rewrite filter_app, Hmid. reflexivity.
Qed.

(** X7: [main] ignores every command-line argument after the baudrate. *)
Theorem main_extra_args H E argv fuel :
  main H E argv fuel = main H E (firstn 4 argv) fuel.
Proof.
  assert (Hp : parse_args H argv = parse_args H (firstn 4 argv))
    by (destruct argv as [|a [|b [|c [|d rest]]]]; reflexivity).
  unfold main. rewrite Hp. reflexivity.
Qed.

Lemma send_raise_base E port baud ff fuel x :
  result (send_font_file E port baud ff fuel) = Raise x -> is_Exception x = false.
Proof.
  destruct (fs E ff) as [f|] eqn:Hf.
  - rewrite (send_result_session E port baud ff f fuel Hf).
    destruct (snd (session E port baud f fuel 0%nat)) as [b|y|]; try discriminate.
    unfold catch. destruct (is_Exception y) eqn:Hy; [discriminate|].
    intro Heq; inversion Heq; subst; exact Hy.
  - unfold send_font_file, send_font_file_m. rewrite Hf. discriminate.
Qed.

(** X12: [main] ends with an exception only when [int] rejects the baudrate argument (with no event at all), when [input()] raises, or when the upload lets through an exception that is not an [Exception] (such as [KeyboardInterrupt]). *)
Theorem main_uncaught H E argv fuel evs e :
  main H E argv fuel = (evs, Uncaught e) ->
  (parse_args H argv = None /\ evs = [] /\ e = PyErr ValueError) \/
  h_input H = Some e \/
  (exists x, e = PyErr x /\ is_Exception x = false).
Proof.
  unfold main.
  destruct (parse_args H argv) as [[[[port ff] baud] out]|] eqn:Hp.
  2:{ intro Heq; inversion Heq; subst. left; auto. }
  destruct (send_font_file E port baud (resolve_font_file H E ff) fuel)
    as [[evs0 j] r] eqn:Hs.
  destruct r as [b|x|]; intro Heq.
  - destruct (h_input H) eqn:Hi; inversion Heq; subst. right; left; reflexivity.
  - inversion Heq; subst. right; right. exists x. split; [reflexivity|].
    apply (send_raise_base E port baud (resolve_font_file H E ff) fuel).
    rewrite Hs. reflexivity.
  - discriminate.
Qed.

(** X9: [main] uses either the given font path or the path next to the script, and the path it uses exists exactly when the given path exists or, for a relative path, the copy next to the script exists. *)
Theorem resolve_font_file_spec H E p :
  (resolve_font_file H E p = p \/
   resolve_font_file H E p = h_join H (script_dir H) p) /\
  path_exists E (resolve_font_file H E p) =
    path_exists E p || (negb (h_isabs H p) && path_exists E (h_join H (script_dir H) p)).
Proof.
  unfold resolve_font_file.
  destruct (h_isabs H p), (path_exists E p) eqn:Hp,
    (path_exists E (h_join H (script_dir H) p)) eqn:Hj;
    cbn; rewrite ?Hp, ?Hj; auto.
Qed.

(** X10: when the font file exists neither at the given path nor (for a relative path) next to the script, [main] prints the not-found message and "Upload failed", waits for Enter, and exits with status 1 without opening the port. *)
Theorem main_missing_file H E argv fuel port ff baud out :
  parse_args H argv = Some (port, ff, baud, out) ->
  path_exists E ff = false ->
  (h_isabs H ff = false -> path_exists E (h_join H (script_dir H) ff) = false) ->
  main H E argv fuel =
  (map MPrint out ++
     [MUpload (Print (MFileNotFound ff)); MPrint MUploadFailed; MPrint MPressEnter;
      MInput],
   match h_input H with None => Exited 1 | Some e => Uncaught e end).
Proof.
  intros Hp He Hj. unfold main. rewrite Hp.
  assert (Hr : resolve_font_file H E ff = ff).
  { unfold resolve_font_file. rewrite He.
    destruct (h_isabs H ff) eqn:Ha; [reflexivity|]. cbn. rewrite (Hj eq_refl). reflexivity. }
  rewrite Hr. unfold path_exists in He.
  destruct (fs E ff) eqn:Hf; [discriminate|].
  unfold send_font_file, send_font_file_m. rewrite Hf.
  change ((print (MFileNotFound ff);; ret false) 0%nat)
    with ([Print (MFileNotFound ff)], 0%nat, @Ret bool false).
  cbv iota beta. rewrite <- app_assoc. reflexivity.
Qed.

(** X6: a file of 2^32 bytes or more is never sent: the call does not return True, and it writes at most the 'C' byte and one START byte ([to_bytes(4)] overflows). *)
Theorem send_big_file E port baud name f fuel :
  fs E name = Some f -> 2 ^ 32 <= fsize f ->
  result (send_font_file E port baud name fuel) <> Ret true /\
  (writes (trace (send_font_file E port baud name fuel)) = [] \/
   writes (trace (send_font_file E port baud name fuel)) = [[CMD_CHINESE]] \/
   writes (trace (send_font_file E port baud name fuel)) = [[CMD_CHINESE]; [CMD_START]]).
Proof.
  intros Hf HL. split.
  - intro Ht. pose proof (send_true_small E port baud name f fuel Hf Ht). lia.
  - exact (send_writes_big E port baud name f fuel Hf HL).
Qed.

Lemma send_port_closed_witness :
  count_ev is_open (trace (send_font_file (test_env (zero_file 600) interrupted)
                             "COM4"%string 115200%Z "font.bin"%string 5)) =
    match serial_open (test_env (zero_file 600) interrupted) "COM4"%string 115200%Z with
    | None => 1%nat | Some _ => 0%nat end /\
  count_ev is_close (trace (send_font_file (test_env (zero_file 600) interrupted)
                              "COM4"%string 115200%Z "font.bin"%string 5)) =
    match result (session (test_env (zero_file 600) interrupted) "COM4"%string 115200%Z
                    (zero_file 600) 5 0%nat) with
    | Ret _ => 1%nat | _ => 0%nat end.
Proof. apply send_port_closed. reflexivity. Defined.

Lemma send_wire_frames_witness :
  let E := test_env (zero_file 600) (nack_at 3) in
  let f := zero_file 600 in
  let cs := chunks_from (S (N.to_nat (fsize f / CHUNK_SIZE))) f 0 in
  Forall (fun c => (1 <= length c <= 256)%nat /\
                   decode_le (le_bytes 2 (N.of_nat (length c))) = N.of_nat (length c)) cs /\
  (writes (trace (send_font_file E "COM4"%string 115200%Z "font.bin"%string 5)) = [] \/
   exists k n,
     writes (trace (send_font_file E "COM4"%string 115200%Z "font.bin"%string 5)) =
       [CMD_CHINESE] :: concat (repeat (attempt_writes (fsize f)) k)
         ++ concat (map data_frame (firstn n cs))
         ++ match result (send_font_file E "COM4"%string 115200%Z "font.bin"%string 5) with
            | Ret true => [[CMD_END]]
            | _ => []
            end /\
     (result (send_font_file E "COM4"%string 115200%Z "font.bin"%string 5) = Ret true ->
      n = length cs)).
Proof.
  intros E f cs.
  apply (send_wire_frames E "COM4"%string 115200%Z "font.bin"%string f 5);
    [reflexivity|reflexivity].
Defined.

Lemma send_progress_witness :
  progress (trace (send_font_file (test_env (zero_file 600) acking)
                     "COM4"%string 115200%Z "font.bin"%string 5)) =
  map (fun k => N.min (256 * N.of_nat k) (fsize (zero_file 600)))
      (seq 1 (N.to_nat ((fsize (zero_file 600) + 255) / 256))).
Proof.
  apply (send_progress (test_env (zero_file 600) acking) "COM4"%string 115200%Z
           "font.bin"%string (zero_file 600) 5 _ 5%nat); [reflexivity|].
  vm_compute. reflexivity.
Defined.

Lemma send_payload_witness :
  concat (data_packets (writes (trace (send_font_file (test_env (zero_file 600) acking)
                                        "COM4"%string 115200%Z "font.bin"%string 5))))
  = contents (zero_file 600).
Proof.
  apply (send_payload (test_env (zero_file 600) acking) "COM4"%string 115200%Z
           "font.bin"%string (zero_file 600) 5 _ 5%nat); [reflexivity|].
  vm_compute. reflexivity.
Defined.

Lemma send_big_file_witness :
  result (send_font_file (test_env (zero_file (2 ^ 32)) acking)
            "COM4"%string 115200%Z "font.bin"%string 5) <> Ret true /\
  (writes (trace (send_font_file (test_env (zero_file (2 ^ 32)) acking)
                    "COM4"%string 115200%Z "font.bin"%string 5)) = [] \/
   writes (trace (send_font_file (test_env (zero_file (2 ^ 32)) acking)
                    "COM4"%string 115200%Z "font.bin"%string 5)) = [[CMD_CHINESE]] \/
   writes (trace (send_font_file (test_env (zero_file (2 ^ 32)) acking)
                    "COM4"%string 115200%Z "font.bin"%string 5))
     = [[CMD_CHINESE]; [CMD_START]]).
Proof.
  apply (send_big_file _ _ _ _ (zero_file (2 ^ 32))); [reflexivity|apply N.le_refl].
Defined.

Lemma main_missing_file_witness :
  main (test_host baud9600 None) (mkEnv (fun _ => None) (fun _ _ => None) acking)
    ["send_chinese_font.py"; "COM3"; "font.bin"]%string 5
  = (map MPrint [] ++
       [MUpload (Print (MFileNotFound "font.bin")); MPrint MUploadFailed;
        MPrint MPressEnter; MInput],
     match h_input (test_host baud9600 None) with
     | None => Exited 1 | Some e => Uncaught e end).
Proof.
  apply (main_missing_file _ _ _ _ "COM3" "font.bin" default_baudrate []);
    [reflexivity|reflexivity|intros _; reflexivity].
Defined.

Lemma main_uncaught_witness :
  let H := test_host baud9600 None in
  let E := test_env (zero_file 600) interrupted in
  let argv := ["send_chinese_font.py"; "COM3"; "font.bin"]%string in
  (parse_args H argv = None /\ fst (main H E argv 5) = [] /\
   PyErr KeyboardInterrupt = PyErr ValueError) \/
  h_input H = Some (PyErr KeyboardInterrupt) \/
  (exists x, PyErr KeyboardInterrupt = PyErr x /\ is_Exception x = false).
Proof.
  intros H E argv.
  apply (main_uncaught H E argv 5 (fst (main H E argv 5))).
  vm_compute. reflexivity.
Defined.

